(** * cdm.storage.network: the NetworkAdapter base class

    A shallow embedding of [objectModel/Python/cdm/storage/network.py] and
    the properties of its retry, wait-time and configuration logic.

    Python objects live in a heap and are addressed by location, so that
    attribute assignments to the adapter ([self.timeout = ...]) and to the
    requests it hands out are distinguishable.  Exceptions are values of
    [pyexn]; a method is a function from heaps to a result and the heap at
    the moment it returned or raised. *)

From Stdlib Require Import ZArith Lia Ascii String.
From Stdlib.Floats Require Import SpecFloat.
From stdpp Require Import gmap strings list.

Local Open Scope Z_scope.

(** ** Python values *)

(** Exceptions raised by the code and by the builtins it calls.
    [HTTPError] is [urllib.error.HTTPError(url, code, msg, hdrs, fp=None)],
    [Exception] the base class raised with a message, [ClientError] whatever
    the http client raises on its own. *)
Inductive pyexn :=
| JSONDecodeError
| AttributeError
| TypeError
| ValueError
| KeyError
| OverflowError
| HTTPError (url : string) (code : Z) (msg : string) (hdrs : gmap string string)
| Exception (msg : string)
| ClientError (what : string).

(** The outcome of a call: a value, or a raised exception. *)
Inductive result (A : Type) :=
| Ok (x : A)
| Raise (e : pyexn).

Arguments Ok {A} x.
Arguments Raise {A} e.

(** What [json.loads] returns: [None], [bool], [int] (unbounded), [float]
    (IEEE binary64, here [spec_float] at precision 53), [str], [list], and
    [dict] with string keys. *)
#[warnings="-register-all"]
Inductive pyval :=
| PyNone
| PyBool (b : bool)
| PyInt (z : Z)
| PyFloat (f : spec_float)
| PyStr (s : string)
| PyList (l : list pyval)
| PyDict (d : gmap string pyval).

(** A Python number held in an attribute: the adapter starts with [int]
    defaults and stores [float] after a configuration update. *)
Inductive num :=
| NInt (z : Z)
| NFloat (f : spec_float).

Definition num_to_py (n : num) : pyval :=
  match n with
  | NInt z => PyInt z
  | NFloat f => PyFloat f
  end.

(** ** binary64 conversions and comparisons *)

Definition prec64 : Z := 53.
Definition emax64 : Z := 1024.

(** [float(z)] for an [int]: the nearest double, ties to even;
    [OverflowError] when that would be an infinity. *)
Definition int_to_float (z : Z) : result spec_float :=
  match binary_normalize prec64 emax64 z 0 false with
  | S754_infinity _ => Raise OverflowError
  | f => Ok f
  end.

(** [int(f)] for a [float]: truncation toward zero. *)
Definition float_to_int (f : spec_float) : result Z :=
  match f with
  | S754_zero _ => Ok 0
  | S754_infinity _ => Raise OverflowError
  | S754_nan => Raise ValueError
  | S754_finite s m e =>
      Ok (cond_Zopp s (if 0 <=? e then Z.pos m * 2 ^ e else Z.pos m / 2 ^ (- e)))
  end.

(** The exact value of a number, as [m * 2^e] when finite. *)
Inductive xval :=
| XNaN
| XNegInf
| XPosInf
| XFin (m e : Z).

Definition float_xval (f : spec_float) : xval :=
  match f with
  | S754_zero _ => XFin 0 0
  | S754_infinity s => if s then XNegInf else XPosInf
  | S754_nan => XNaN
  | S754_finite s m e => XFin (cond_Zopp s (Z.pos m)) e
  end.

Definition num_xval (n : num) : xval :=
  match n with
  | NInt z => XFin z 0
  | NFloat f => float_xval f
  end.

Definition fin_compare (m1 e1 m2 e2 : Z) : comparison :=
  let e := Z.min e1 e2 in
  Z.compare (m1 * 2 ^ (e1 - e)) (m2 * 2 ^ (e2 - e)).

(** Python compares [int] and [float] by exact value; every comparison
    with a NaN is false. *)
Definition xval_compare (a b : xval) : option comparison :=
  match a, b with
  | XNaN, _ | _, XNaN => None
  | XNegInf, XNegInf => Some Eq
  | XPosInf, XPosInf => Some Eq
  | XNegInf, _ => Some Lt
  | _, XNegInf => Some Gt
  | XPosInf, _ => Some Gt
  | _, XPosInf => Some Lt
  | XFin m1 e1, XFin m2 e2 => Some (fin_compare m1 e1 m2 e2)
  end.

Definition num_compare (a b : num) : option comparison :=
  xval_compare (num_xval a) (num_xval b).

(** [a <= b] *)
Definition num_le (a b : num) : bool :=
  match num_compare a b with
  | Some Lt | Some Eq => true
  | _ => false
  end.

(** [a == b] *)
Definition num_eq (a b : num) : bool :=
  match num_compare a b with
  | Some Eq => true
  | _ => false
  end.

(** ** The Python runtime the module relies on

    [json.loads] and the string cases of [float()] and [int()] belong to
    the interpreter, not to this repository; the adapter is verified for
    any implementation of them. *)
Class PyRuntime := {
  json_loads : string -> result pyval;
  str_to_float : string -> option spec_float;
  str_to_int : string -> option Z
}.

(** [float(v)] *)
Definition py_float `{PyRuntime} (v : pyval) : result spec_float :=
  match v with
  | PyBool b => int_to_float (Z.b2z b)
  | PyInt z => int_to_float z
  | PyFloat f => Ok f
  | PyStr s =>
      match str_to_float s with
      | Some f => Ok f
      | None => Raise ValueError
      end
  | PyNone | PyList _ | PyDict _ => Raise TypeError
  end.

(** [int(v)] *)
Definition py_int `{PyRuntime} (v : pyval) : result Z :=
  match v with
  | PyBool b => Ok (Z.b2z b)
  | PyInt z => Ok z
  | PyFloat f => float_to_int f
  | PyStr s =>
      match str_to_int s with
      | Some z => Ok z
      | None => Raise ValueError
      end
  | PyNone | PyList _ | PyDict _ => Raise TypeError
  end.

(** [v.get(key)]: only a [dict] has the method; a missing key gives [None]. *)
Definition py_get (v : pyval) (key : string) : result pyval :=
  match v with
  | PyDict d => Ok (default PyNone (d !! key))
  | _ => Raise AttributeError
  end.

(** [v[key]] with a string key. *)
Definition py_getitem (v : pyval) (key : string) : result pyval :=
  match v with
  | PyDict d =>
      match d !! key with
      | Some x => Ok x
      | None => Raise KeyError
      end
  | _ => Raise TypeError
  end.

(** [v is not None] *)
Definition is_not_None (v : pyval) : bool :=
  match v with
  | PyNone => false
  | _ => true
  end.

(** [random.randint(a, b)]: "a random integer N such that a <= N <= b",
    [ValueError] on an empty range.  [draw] is the generator's raw output
    for this call. *)
Definition randint (a b draw : Z) : result Z :=
  if b <? a then Raise ValueError else Ok (a + draw mod (b - a + 1)).

(** ** Requests, responses and the http client *)

Module CdmHttpResponse.

(** Modelled from the spec: the class CdmHttpResponse of
    cdm.utilities.network is not among the sources; the record has the
    attributes network.py reads (the spec's ResponseOutcome: succeeded,
    status_code, body, response_headers, failure_reason).  An instance is
    truthy, as any object without [__bool__] or [__len__]. *)
Record t := mk {
  is_successful : bool;
  status_code : Z;
  content : string;
  response_headers : gmap string string;
  reason : option string
}.

End CdmHttpResponse.

Module CdmHttpRequest.

(** Modelled from the spec: the class CdmHttpRequest of
    cdm.utilities.network is not among the sources; the record has the
    attributes network.py reads or assigns (the spec's RequestDescriptor:
    target, headers, method, timeout, maximum_timeout, retry_budget).  The
    constructor receives the url; an attribute network.py assigns later is
    [None] until then. *)
Record t := mk {
  requested_url : string;
  headers : option (gmap string string);
  method : option string;
  timeout : option num;
  maximum_timeout : option num;
  number_of_retries : option Z
}.

(** [CdmHttpRequest(path)] *)
Definition init (url : string) : t :=
  mk url None None None None None.

Definition set_headers (v : gmap string string) (r : t) : t :=
  mk (requested_url r) (Some v) (method r) (timeout r) (maximum_timeout r)
     (number_of_retries r).

Definition set_method (v : string) (r : t) : t :=
  mk (requested_url r) (headers r) (Some v) (timeout r) (maximum_timeout r)
     (number_of_retries r).

Definition set_timeout (v : num) (r : t) : t :=
  mk (requested_url r) (headers r) (method r) (Some v) (maximum_timeout r)
     (number_of_retries r).

Definition set_maximum_timeout (v : num) (r : t) : t :=
  mk (requested_url r) (headers r) (method r) (timeout r) (Some v)
     (number_of_retries r).

Definition set_number_of_retries (v : Z) (r : t) : t :=
  mk (requested_url r) (headers r) (method r) (timeout r) (maximum_timeout r)
     (Some v).

End CdmHttpRequest.

(** The callback handed to the client:
    [(response, has_failed, retry_number) -> milliseconds or None].  The
    retry number "starts from 1" (docstring), hence a natural number; the
    last argument is the random generator's output for the call. *)
Definition WaitTimeCallback : Type :=
  option CdmHttpResponse.t -> bool -> N -> Z -> result (option Z).

(** [CdmHttpClient.send_async(request, callback)]: the transport, supplied
    by the subclass.  It returns a response, returns [None], or raises. *)
Record CdmHttpClient := {
  send_async :
    CdmHttpRequest.t -> WaitTimeCallback -> result (option CdmHttpResponse.t)
}.

(** ** The adapter object *)

Definition DEFAULT_TIMEOUT : Z := 2000.
Definition DEFAULT_NUMBER_OF_RETRIES : Z := 2.
Definition DEFAULT_MAXIMUM_TIMEOUT : Z := 10000.
Definition DEFAULT_SHORTEST_WAIT_TIME : Z := 500.

(** Instance attributes of a NetworkAdapter.  [_http_client] is assigned by
    the subclass constructor, not by [__init__]. *)
Record NetworkAdapter := {
  timeout : num;
  maximum_timeout : num;
  number_of_retries : Z;
  wait_time_callback : WaitTimeCallback;
  _http_client : option CdmHttpClient
}.

Definition set_timeout (v : num) (a : NetworkAdapter) : NetworkAdapter :=
  {| timeout := v;
     maximum_timeout := maximum_timeout a;
     number_of_retries := number_of_retries a;
     wait_time_callback := wait_time_callback a;
     _http_client := _http_client a |}.

Definition set_maximum_timeout (v : num) (a : NetworkAdapter) : NetworkAdapter :=
  {| timeout := timeout a;
     maximum_timeout := v;
     number_of_retries := number_of_retries a;
     wait_time_callback := wait_time_callback a;
     _http_client := _http_client a |}.

Definition set_number_of_retries (v : Z) (a : NetworkAdapter) : NetworkAdapter :=
  {| timeout := timeout a;
     maximum_timeout := maximum_timeout a;
     number_of_retries := v;
     wait_time_callback := wait_time_callback a;
     _http_client := _http_client a |}.

(** ** Heap and the method monad *)

(** Locations are indices into the heap. *)
Abbreviation loc := nat (only parsing).

Inductive object :=
| ObjAdapter (a : NetworkAdapter)
| ObjRequest (r : CdmHttpRequest.t).

Abbreviation heap := (list object) (only parsing).

(** A computation returns a value or raises, and leaves a heap. *)
Definition M (A : Type) : Type := heap -> (result A) * heap.

Definition ret {A} (x : A) : M A := fun h => (Ok x, h).

Definition raise {A} (e : pyexn) : M A := fun h => (Raise e, h).

Definition bind {A B} (m : M A) (k : A -> M B) : M B :=
  fun h =>
    match m h with
    | (Ok x, h') => k x h'
    | (Raise e, h') => (Raise e, h')
    end.

Definition lift {A} (r : result A) : M A := fun h => (r, h).

Notation "'do' x <- m ; k" := (bind m (fun x => k))
  (at level 10, x name, m at level 100, k at level 200).
Notation "m ;; k" := (bind m (fun _ => k))
  (at level 100, k at level 200, right associativity).

(** Object creation: the new object gets the next free location. *)
Definition alloc (o : object) : M loc :=
  fun h => (Ok (length h), h ++ [o]).

(** Reading [self]; a location that holds no adapter has none of its
    attributes. *)
Definition get_adapter (self : loc) : M NetworkAdapter :=
  fun h =>
    match h !! self with
    | Some (ObjAdapter a) => (Ok a, h)
    | _ => (Raise AttributeError, h)
    end.

Definition get_request (request : loc) : M CdmHttpRequest.t :=
  fun h =>
    match h !! request with
    | Some (ObjRequest r) => (Ok r, h)
    | _ => (Raise AttributeError, h)
    end.

(** [self.attr = v] *)
Definition setattr_adapter (self : loc) (f : NetworkAdapter -> NetworkAdapter)
  : M unit :=
  fun h =>
    match h !! self with
    | Some (ObjAdapter a) => (Ok tt, <[self := ObjAdapter (f a)]> h)
    | _ => (Raise AttributeError, h)
    end.

(** [request.attr = v] *)
Definition setattr_request (request : loc)
  (f : CdmHttpRequest.t -> CdmHttpRequest.t) : M unit :=
  fun h =>
    match h !! request with
    | Some (ObjRequest r) => (Ok tt, <[request := ObjRequest (f r)]> h)
    | _ => (Raise AttributeError, h)
    end.

(** ** The methods of NetworkAdapter *)

(** [_default_get_wait_time(self, response, has_failed, retry_number)]:
<<
    if response and response.is_successful and not has_failed:
        return None
    return random.randint(0, 2**retry_number) * self.DEFAULT_SHORTEST_WAIT_TIME
>>
    A response object is truthy, so [response and ...] tests for [None].
    For a natural [retry_number], [2**retry_number] is an [int]. *)
Definition _default_get_wait_time : WaitTimeCallback :=
  fun response has_failed retry_number draw =>
    if match response with
       | Some r => CdmHttpResponse.is_successful r
       | None => false
       end && negb has_failed
    then Ok None
    else
      match randint 0 (2 ^ Z.of_N retry_number) draw with
      | Ok k => Ok (Some (k * DEFAULT_SHORTEST_WAIT_TIME))
      | Raise e => Raise e
      end.

(** The attributes [__init__] assigns:
<<
    self.timeout = self.DEFAULT_TIMEOUT
    self.maximum_timeout = self.DEFAULT_MAXIMUM_TIMEOUT
    self.number_of_retries = self.DEFAULT_NUMBER_OF_RETRIES
    self.wait_time_callback = self._default_get_wait_time
>> *)
Definition initial_attributes : NetworkAdapter :=
  {| timeout := NInt DEFAULT_TIMEOUT;
     maximum_timeout := NInt DEFAULT_MAXIMUM_TIMEOUT;
     number_of_retries := DEFAULT_NUMBER_OF_RETRIES;
     wait_time_callback := _default_get_wait_time;
     _http_client := None |}.

(** [NetworkAdapter()]: a new object, initialised by [__init__]. *)
Definition __init__ : M loc :=
  alloc (ObjAdapter initial_attributes).

(** [_set_up_cdm_request(self, path, headers, method)]:
<<
    request = CdmHttpRequest(path)
    request.headers = headers
    request.method = method
    request.timeout = self.timeout
    request.maximum_timeout = self.maximum_timeout
    request.number_of_retries = self.number_of_retries
    return request
>>
    The headers dictionary is taken by value: no property here depends on
    the caller mutating it afterwards. *)
Definition _set_up_cdm_request (self : loc) (path : string)
  (headers : gmap string string) (method : string) : M loc :=
  do request <- alloc (ObjRequest (CdmHttpRequest.init path));
  setattr_request request (CdmHttpRequest.set_headers headers);;
  setattr_request request (CdmHttpRequest.set_method method);;
  do a <- get_adapter self;
  setattr_request request (CdmHttpRequest.set_timeout (timeout a));;
  do a <- get_adapter self;
  setattr_request request (CdmHttpRequest.set_maximum_timeout (maximum_timeout a));;
  do a <- get_adapter self;
  setattr_request request (CdmHttpRequest.set_number_of_retries (number_of_retries a));;
  ret request.

(** [_read(self, request)], with the awaited call taken as a call:
<<
    result = await self._http_client.send_async(request, self.wait_time_callback)
    if result is None:
        raise Exception('The result of a request is undefined.')
    if result.is_successful is False:
        raise urllib.error.HTTPError(url=request.requested_url, code=result.status_code,
                                     msg='Failed to read', hdrs=result.response_headers, fp=None)
    return result.content
>> *)
Definition _read (self : loc) (request : loc) : M string :=
  do a <- get_adapter self;
  do client <- lift (match _http_client a with
                     | Some c => Ok c
                     | None => Raise AttributeError
                     end);
  do r <- get_request request;
  do result <- lift (send_async client r (wait_time_callback a));
  match result with
  | None => raise (Exception "The result of a request is undefined.")
  | Some res =>
      if negb (CdmHttpResponse.is_successful res)
      then
        do r' <- get_request request;
        raise (HTTPError (CdmHttpRequest.requested_url r')
                 (CdmHttpResponse.status_code res) "Failed to read"
                 (CdmHttpResponse.response_headers res))
      else ret (CdmHttpResponse.content res)
  end.

(** One of the three blocks of [update_network_config]:
<<
    if configs_json.get(key) is not None:
        self.attr = conv(configs_json[key])
>> *)
Definition update_field {A} (self : loc) (configs_json : pyval) (key : string)
  (conv : pyval -> result A) (store : A -> NetworkAdapter -> NetworkAdapter)
  : M unit :=
  do present <- lift (py_get configs_json key);
  if is_not_None present
  then
    do item <- lift (py_getitem configs_json key);
    do v <- lift (conv item);
    setattr_adapter self (store v)
  else ret tt.

(** [update_network_config(self, config)]:
<<
    configs_json = json.loads(config)
    if configs_json.get('timeout') is not None:
        self.timeout = float(configs_json['timeout'])
    if configs_json.get('maximumTimeout') is not None:
        self.maximum_timeout = float(configs_json['maximumTimeout'])
    if configs_json.get('numberOfRetries') is not None:
        self.number_of_retries = int(configs_json['numberOfRetries'])
>> *)
Definition update_network_config `{PyRuntime} (self : loc) (config : string)
  : M unit :=
  do configs_json <- lift (json_loads config);
  update_field self configs_json "timeout" py_float
    (fun f => set_timeout (NFloat f));;
  update_field self configs_json "maximumTimeout" py_float
    (fun f => set_maximum_timeout (NFloat f));;
  update_field self configs_json "numberOfRetries" py_int
    set_number_of_retries.

(** [fetch_network_config(self)]:
<<
    return {'timeout': self.timeout,
            'maximumTimeout': self.maximum_timeout,
            'numberOfRetries': self.number_of_retries}
>> *)
Definition fetch_network_config (self : loc) : M pyval :=
  do a1 <- get_adapter self;
  do a2 <- get_adapter self;
  do a3 <- get_adapter self;
  ret (PyDict
         (<["numberOfRetries" := PyInt (number_of_retries a3)]>
            (<["maximumTimeout" := num_to_py (maximum_timeout a2)]>
               {["timeout" := num_to_py (timeout a1)]}))).

(** ** A runtime for concrete runs

    A decoder for the fragment of JSON made of objects, arrays, strings
    without escapes, integers, [true], [false] and [null], and the
    decimal-integer case of [float(str)] and [int(str)].  On this fragment
    it returns what the interpreter returns; texts outside it (fractions,
    exponents, escapes) are rejected here.  It serves to run the methods on
    concrete configuration texts; the theorems hold for every runtime. *)
Module Lite.

Local Open Scope char_scope.

Definition dquote : ascii := ascii_of_nat 34.
Definition backslash : ascii := ascii_of_nat 92.

Definition is_ws (c : ascii) : bool :=
  let n := nat_of_ascii c in
  (n =? 32)%nat || (n =? 9)%nat || (n =? 10)%nat || (n =? 13)%nat.

Fixpoint skip_ws (s : string) : string :=
  match s with
  | String c r => if is_ws c then skip_ws r else s
  | EmptyString => s
  end.

Definition digit_of (c : ascii) : option Z :=
  let n := Z.of_nat (nat_of_ascii c) in
  if (48 <=? n)%Z && (n <=? 57)%Z then Some (n - 48)%Z else None.

Fixpoint read_digits (acc : Z) (s : string) : Z * string :=
  match s with
  | String c r =>
      match digit_of c with
      | Some d => read_digits (10 * acc + d)%Z r
      | None => (acc, s)
      end
  | EmptyString => (acc, s)
  end.

(** An optional minus, then 0 or a digit string without a leading 0, not
    continued by a fraction or an exponent. *)
Definition read_int (s : string) : option (Z * string) :=
  let '(neg, s1) :=
    match s with
    | String "-" r => (true, r)
    | _ => (false, s)
    end in
  match s1 with
  | String c r =>
      match digit_of c with
      | Some d =>
          let '(v, rest) := if (d =? 0)%Z then (0%Z, r) else read_digits d r in
          match rest with
          | String "." _ | String "e" _ | String "E" _ => None
          | _ => Some (if neg then (- v)%Z else v, rest)
          end
      | None => None
      end
  | EmptyString => None
  end.

(** The characters up to the closing quote. *)
Fixpoint read_string (s : string) : option (string * string) :=
  match s with
  | EmptyString => None
  | String c r =>
      if Ascii.eqb c dquote then Some (EmptyString, r)
      else if Ascii.eqb c backslash || (nat_of_ascii c <? 32)%nat then None
      else
        match read_string r with
        | Some (x, rest) => Some (String c x, rest)
        | None => None
        end
  end.

Fixpoint strip_prefix (p s : string) : option string :=
  match p, s with
  | EmptyString, _ => Some s
  | String a p', String b s' => if Ascii.eqb a b then strip_prefix p' s' else None
  | String _ _, EmptyString => None
  end.

Fixpoint parse_elems (pv : string -> option (pyval * string)) (k : nat)
  (acc : list pyval) (s : string) : option (list pyval * string) :=
  match k with
  | O => None
  | S k' =>
      match pv s with
      | Some (v, r) =>
          match skip_ws r with
          | String "," r' => parse_elems pv k' (acc ++ [v]) r'
          | String "]" r' => Some (acc ++ [v], r')
          | _ => None
          end
      | None => None
      end
  end.

(** A later occurrence of a key replaces an earlier one, as in a [dict]. *)
Fixpoint parse_members (pv : string -> option (pyval * string)) (k : nat)
  (acc : gmap string pyval) (s : string) : option (gmap string pyval * string) :=
  match k with
  | O => None
  | S k' =>
      match skip_ws s with
      | String c r =>
          if Ascii.eqb c dquote then
            match read_string r with
            | Some (key, r1) =>
                match skip_ws r1 with
                | String ":" r2 =>
                    match pv r2 with
                    | Some (v, r3) =>
                        match skip_ws r3 with
                        | String "," r4 => parse_members pv k' (<[key := v]> acc) r4
                        | String "}" r4 => Some (<[key := v]> acc, r4)
                        | _ => None
                        end
                    | None => None
                    end
                | _ => None
                end
            | None => None
            end
          else None
      | EmptyString => None
      end
  end.

Fixpoint parse_value (fuel : nat) (s : string) : option (pyval * string) :=
  match fuel with
  | O => None
  | S n =>
      match skip_ws s with
      | EmptyString => None
      | String c r =>
          if Ascii.eqb c "{" then
            match skip_ws r with
            | String "}" r' => Some (PyDict ∅, r')
            | _ =>
                match parse_members (parse_value n) n ∅ r with
                | Some (d, r') => Some (PyDict d, r')
                | None => None
                end
            end
          else if Ascii.eqb c "[" then
            match skip_ws r with
            | String "]" r' => Some (PyList [], r')
            | _ =>
                match parse_elems (parse_value n) n [] r with
                | Some (l, r') => Some (PyList l, r')
                | None => None
                end
            end
          else if Ascii.eqb c dquote then
            match read_string r with
            | Some (x, r') => Some (PyStr x, r')
            | None => None
            end
          else if Ascii.eqb c "t" then
            match strip_prefix "rue" r with
            | Some r' => Some (PyBool true, r')
            | None => None
            end
          else if Ascii.eqb c "f" then
            match strip_prefix "alse" r with
            | Some r' => Some (PyBool false, r')
            | None => None
            end
          else if Ascii.eqb c "n" then
            match strip_prefix "ull" r with
            | Some r' => Some (PyNone, r')
            | None => None
            end
          else
            match read_int (String c r) with
            | Some (z, r') => Some (PyInt z, r')
            | None => None
            end
      end
  end.

Definition loads (s : string) : result pyval :=
  match parse_value (S (String.length s)) s with
  | Some (v, rest) =>
      match skip_ws rest with
      | EmptyString => Ok v
      | _ => Raise JSONDecodeError
      end
  | None => Raise JSONDecodeError
  end.

(** An optional sign and decimal digits, nothing else. *)
Definition int_of_str (s : string) : option Z :=
  let '(neg, s1) :=
    match s with
    | String "-" r => (true, r)
    | String "+" r => (false, r)
    | _ => (false, s)
    end in
  match s1 with
  | String c _ =>
      match digit_of c with
      | Some _ =>
          match read_digits 0 s1 with
          | (v, EmptyString) => Some (if neg then (- v)%Z else v)
          | _ => None
          end
      | None => None
      end
  | EmptyString => None
  end.

Definition float_of_str (s : string) : option spec_float :=
  match int_of_str s with
  | Some z =>
      match int_to_float z with
      | Ok f => Some f
      | Raise _ => Some (S754_infinity (z <? 0)%Z)
      end
  | None => None
  end.

Definition runtime : PyRuntime :=
  {| json_loads := loads; str_to_float := float_of_str; str_to_int := int_of_str |}.

(** Writing a configuration text: [quoted "k"] is the key in quotes. *)
Definition quoted (s : string) : string :=
  String dquote (s ++ String dquote EmptyString).

End Lite.

(** ** Notions used in the statements *)

(** The adapter of a program that has only constructed it. *)
Definition fresh_heap : heap := snd (__init__ []).

(** The configuration invariant [timeout <= maximum_timeout], on the
    adapter and on a request. *)
Definition timeout_invariant (a : NetworkAdapter) : Prop :=
  num_le (timeout a) (maximum_timeout a) = true.

Definition request_invariant (r : CdmHttpRequest.t) : Prop :=
  exists t m,
    CdmHttpRequest.timeout r = Some t /\
    CdmHttpRequest.maximum_timeout r = Some m /\
    num_le t m = true.

(** The wait-time callback is consulted for a failed attempt: there is no
    response, or the response is unsuccessful, or the caller flags a
    failure. *)
Definition failing_path (response : option CdmHttpResponse.t)
  (has_failed : bool) : Prop :=
  response = None \/
  (exists r, response = Some r /\ CdmHttpResponse.is_successful r = false) \/
  has_failed = true.

(** The verbs of HTTP; [method] itself is an unconstrained [str] in the
    source. *)
Definition supported_methods : list string :=
  ["GET"; "HEAD"; "POST"; "PUT"; "DELETE"; "CONNECT"; "OPTIONS"; "TRACE";
   "PATCH"]%string.

Definition supported_method (m : string) : bool :=
  bool_decide (m ∈ supported_methods).

(** The configuration payload of the interface description: an object
    whose [timeout] and [maximumTimeout], where present, are numbers and
    whose [numberOfRetries], where present, is a non-negative integer.
    Other keys are unconstrained. *)
Definition is_number (v : pyval) : Prop :=
  match v with
  | PyInt _ | PyFloat _ => True
  | _ => False
  end.

Definition well_formed_payload (d : gmap string pyval) : Prop :=
  (forall v, d !! "timeout"%string = Some v -> is_number v) /\
  (forall v, d !! "maximumTimeout"%string = Some v -> is_number v) /\
  (forall v, d !! "numberOfRetries"%string = Some v ->
             exists z, v = PyInt z /\ 0 <= z).

(** The integers among the two timeouts fit a double: [float()] accepts
    them. *)
Definition timeouts_convertible (d : gmap string pyval) : Prop :=
  (forall z, d !! "timeout"%string = Some (PyInt z) ->
             exists f, int_to_float z = Ok f) /\
  (forall z, d !! "maximumTimeout"%string = Some (PyInt z) ->
             exists f, int_to_float z = Ok f).

(** Two payloads that agree on the three keys the adapter knows. *)
Definition same_known_keys (d1 d2 : gmap string pyval) : Prop :=
  d1 !! "timeout"%string = d2 !! "timeout"%string /\
  d1 !! "maximumTimeout"%string = d2 !! "maximumTimeout"%string /\
  d1 !! "numberOfRetries"%string = d2 !! "numberOfRetries"%string.

(** A snapshot entry [got] equals the payload value [given] as Python's
    [==] on numbers decides it. *)
Definition py_num_eq (got given : pyval) : bool :=
  match got, given with
  | PyInt a, PyInt b => num_eq (NInt a) (NInt b)
  | PyInt a, PyFloat b => num_eq (NInt a) (NFloat b)
  | PyFloat a, PyInt b => num_eq (NFloat a) (NInt b)
  | PyFloat a, PyFloat b => num_eq (NFloat a) (NFloat b)
  | _, _ => false
  end.

(** A computation that assigns to no object other than [self] and creates
    none. *)
Definition writes_only {A} (self : loc) (m : M A) : Prop :=
  forall h,
    length (snd (m h)) = length h /\
    forall l, l <> self -> snd (m h) !! l = h !! l.

(** What the exported snapshot holds for a timeout the payload gave as
    [given]: a float is stored as it is; an integer is stored as the
    double [float()] rounds it to, which is numerically the integer itself
    when its magnitude is below [2^53]. *)
Definition reflects_given (given got : pyval) : Prop :=
  match given with
  | PyFloat g => got = PyFloat g
  | PyInt z =>
      exists f,
        int_to_float z = Ok f /\ got = PyFloat f /\
        (Z.abs z < 2 ^ 53 -> py_num_eq got given = true)
  | _ => False
  end.

(** The payload leaves a key alone: it is missing, or [null]. *)
Definition leaves_alone (d : gmap string pyval) (key : string) : Prop :=
  default PyNone (d !! key) = PyNone.

(** ** Stubs for concrete runs *)

(** The assignment a subclass constructor makes: [self._http_client = c]. *)
Definition set_http_client (c : CdmHttpClient) (a : NetworkAdapter)
  : NetworkAdapter :=
  {| timeout := timeout a;
     maximum_timeout := maximum_timeout a;
     number_of_retries := number_of_retries a;
     wait_time_callback := wait_time_callback a;
     _http_client := Some c |}.

(** A transport that answers every request with the same outcome. *)
Definition stub_client (o : result (option CdmHttpResponse.t)) : CdmHttpClient :=
  {| send_async := fun _ _ => o |}.

Definition stub_response (ok : bool) : CdmHttpResponse.t :=
  CdmHttpResponse.mk ok (if ok then 200 else 503) "payload"
    {["Retry-After"%string := "1"%string]} None.

Definition stub_request : CdmHttpRequest.t :=
  CdmHttpRequest.mk "https://host/doc.json" (Some ∅) (Some "GET"%string)
    (Some (NInt 2000)) (Some (NInt 10000)) (Some 2).

(** Configuration texts: [{"timeout": 20000}],
    [{"timeout": 9007199254740993}] (that is [2^53 + 1]), and
    [{"maximumTimeout": 1000...0, "numberOfRetries": 5}] with 309 zeros. *)
Definition config_long_timeout : string :=
  "{" ++ Lite.quoted "timeout" ++ ": 20000}".

Definition config_odd_timeout : string :=
  "{" ++ Lite.quoted "timeout" ++ ": 9007199254740993}".

Fixpoint zeros (n : nat) : string :=
  match n with
  | O => EmptyString
  | S n' => String "0" (zeros n')
  end.

Definition config_huge_maximum : string :=
  "{" ++ Lite.quoted "maximumTimeout" ++ ": 1" ++ zeros 309 ++ ", "
      ++ Lite.quoted "numberOfRetries" ++ ": 5}".

Definition config_retries_only : string :=
  "{" ++ Lite.quoted "numberOfRetries" ++ ": 7, "
      ++ Lite.quoted "verbose" ++ ": true}".

(** An adapter with the stub transport at location 0 and a request built
    by it at location 1. *)
Definition stub_heap (o : result (option CdmHttpResponse.t)) : heap :=
  [ObjAdapter (set_http_client (stub_client o) initial_attributes);
   ObjRequest stub_request].

(** ** Notions for the further properties *)

(** What one block of [update_network_config] decides for its key: a
    value to store, nothing to do (key missing or [null]), or the error
    of the conversion. *)
Definition field_outcome {A} (d : gmap string pyval) (key : string)
  (conv : pyval -> result A) : result (option A) :=
  match d !! key with
  | Some v =>
      if is_not_None v then
        match conv v with
        | Ok x => Ok (Some x)
        | Raise e => Raise e
        end
      else Ok None
  | None => Ok None
  end.

(** Two payloads that say the same about the three known keys once a
    [null] is read as a missing key. *)
Definition same_settings (d1 d2 : gmap string pyval) : Prop :=
  default PyNone (d1 !! "timeout"%string)
    = default PyNone (d2 !! "timeout"%string) /\
  default PyNone (d1 !! "maximumTimeout"%string)
    = default PyNone (d2 !! "maximumTimeout"%string) /\
  default PyNone (d1 !! "numberOfRetries"%string)
    = default PyNone (d2 !! "numberOfRetries"%string).

(** A number [float()] converts without loss: a float, or an integer of
    magnitude below [2^53]. *)
Definition float_safe (n : num) : Prop :=
  match n with
  | NInt z => Z.abs z < 2 ^ 53
  | NFloat _ => True
  end.

(** [new] is [old] after a pass through [float()]: the same float, or a
    float equal to the integer. *)
Definition same_number (old new : num) : Prop :=
  match old with
  | NFloat f => new = NFloat f
  | NInt z => exists f, new = NFloat f /\ num_eq new (NInt z) = true
  end.

(** Build a request, update the configuration, build another request. *)
Definition build_update_build `{PyRuntime} (self : loc) (path : string)
  (headers : gmap string string) (method config : string) : M (loc * loc) :=
  do r1 <- _set_up_cdm_request self path headers method;
  update_network_config self config;;
  do r2 <- _set_up_cdm_request self path headers method;
  ret (r1, r2).

(** Build a request and read it. *)
Definition build_and_read (self : loc) (path : string)
  (headers : gmap string string) (method : string) : M string :=
  do request <- _set_up_cdm_request self path headers method;
  _read self request.

(** Construct an adapter and read through it at once. *)
Definition construct_and_read (request : loc) : M string :=
  do self <- __init__;
  _read self request.

(** Further configuration texts: [[1, 2]],
    [{"timeout": 5, "maximumTimeout": "soon"}],
    [{"timeout": "soon", "numberOfRetries": 4}],
    [{"timeout": null, "numberOfRetries": 4}],
    [{"numberOfRetries": 4}], [{"numberOfRetries": -3}],
    [{"timeout": 2000, "maximumTimeout": 10000, "numberOfRetries": 2}]. *)
Definition config_array : string := "[1, 2]".

Definition config_bad_maximum : string :=
  "{" ++ Lite.quoted "timeout" ++ ": 5, " ++ Lite.quoted "maximumTimeout"
      ++ ": " ++ Lite.quoted "soon" ++ "}".

Definition config_bad_timeout : string :=
  "{" ++ Lite.quoted "timeout" ++ ": " ++ Lite.quoted "soon" ++ ", "
      ++ Lite.quoted "numberOfRetries" ++ ": 4}".

Definition config_null_timeout : string :=
  "{" ++ Lite.quoted "timeout" ++ ": null, "
      ++ Lite.quoted "numberOfRetries" ++ ": 4}".

Definition config_four_retries : string :=
  "{" ++ Lite.quoted "numberOfRetries" ++ ": 4}".

Definition config_negative_retries : string :=
  "{" ++ Lite.quoted "numberOfRetries" ++ ": -3}".

Definition config_defaults : string :=
  "{" ++ Lite.quoted "timeout" ++ ": 2000, " ++ Lite.quoted "maximumTimeout"
      ++ ": 10000, " ++ Lite.quoted "numberOfRetries" ++ ": 2}".

(** * Properties *)

(** Facts about a payload written out in full: each is a lookup that
    computes. *)
Ltac by_lookup :=
  let v := fresh "v" in
  let Hv := fresh "Hv" in
  intros v Hv; vm_compute in Hv; try discriminate;
  try (inversion Hv; subst v; clear Hv).

Create HintDb frame.

(** ** The random draw *)

(** [randint] meets its documented contract: a value within the bounds. *)
Lemma randint_range (a b draw : Z) :
  a <= b -> exists k, randint a b draw = Ok k /\ a <= k <= b.
Proof.
  intros Hab. unfold randint.
  destruct (Z.ltb_spec b a) as [Hlt | _]; [lia |].
  eexists; split; [reflexivity |].
  pose proof (Z.mod_pos_bound draw (b - a + 1)). lia.
Qed.

(** Every value within the bounds is drawn by some output of the
    generator. *)
Lemma randint_onto (a b k : Z) :
  a <= k <= b -> randint a b (k - a) = Ok k.
Proof.
  intros Hk. unfold randint.
  destruct (Z.ltb_spec b a) as [Hlt | _]; [lia |].
  rewrite Z.mod_small by lia. f_equal. lia.
Qed.

Lemma pow2_pos (n : N) : 0 < 2 ^ Z.of_N n.
Proof. apply Z.pow_pos_nonneg; lia. Qed.

(** ** The wait-time callback *)

Lemma default_wait_time_failing (response : option CdmHttpResponse.t)
  (has_failed : bool) (n : N) (draw : Z) :
  failing_path response has_failed ->
  _default_get_wait_time response has_failed n draw =
    match randint 0 (2 ^ Z.of_N n) draw with
    | Ok k => Ok (Some (k * DEFAULT_SHORTEST_WAIT_TIME))
    | Raise e => Raise e
    end.
Proof.
  intros [-> | [(r & -> & Hr) | ->]]; unfold _default_get_wait_time.
  - reflexivity.
  - rewrite Hr. reflexivity.
  - rewrite andb_false_r. reflexivity.
Qed.

(** C1 (as amended): on a failing path, for a retry number [n] between 1
    and the retry budget, the default callback returns a wait time between
    0 and [2^n * DEFAULT_SHORTEST_WAIT_TIME] milliseconds, both ends
    included; the upper end is reached by some draw. *)
Theorem default_wait_time_bound (response : option CdmHttpResponse.t)
  (has_failed : bool) (n retry_budget : N) (draw : Z) :
  (1 <= n <= retry_budget)%N ->
  failing_path response has_failed ->
  (exists w,
      _default_get_wait_time response has_failed n draw = Ok (Some w) /\
      0 <= w <= 2 ^ Z.of_N n * DEFAULT_SHORTEST_WAIT_TIME) /\
  (exists draw',
      _default_get_wait_time response has_failed n draw' =
        Ok (Some (2 ^ Z.of_N n * DEFAULT_SHORTEST_WAIT_TIME))).
Proof.
  intros _ Hfail. pose proof (pow2_pos n) as Hpos. split.
  - rewrite (default_wait_time_failing _ _ _ _ Hfail).
    destruct (randint_range 0 (2 ^ Z.of_N n) draw) as (k & -> & Hk); [lia |].
    eexists; split; [reflexivity |].
    unfold DEFAULT_SHORTEST_WAIT_TIME. lia.
  - exists (2 ^ Z.of_N n - 0).
    rewrite (default_wait_time_failing _ _ _ _ Hfail).
    rewrite randint_onto by lia. reflexivity.
Qed.

Lemma default_wait_time_bound_witness :
  (exists w,
      _default_get_wait_time None true 3%N 5 = Ok (Some w) /\
      0 <= w <= 2 ^ Z.of_N 3%N * DEFAULT_SHORTEST_WAIT_TIME) /\
  (exists draw',
      _default_get_wait_time None true 3%N draw' =
        Ok (Some (2 ^ Z.of_N 3%N * DEFAULT_SHORTEST_WAIT_TIME))).
Proof.
  apply (default_wait_time_bound None true 3%N 4%N 5).
  - lia.
  - left. reflexivity.
Defined.

(** C1 (as stated) fails: at retry number 1 the draw 2 is within
    [randint(0, 2**1)] and gives 1000 ms, above the stated bound
    [(2^1 - 1) * 500 = 500]. *)
Lemma default_wait_time_above_stated_bound :
  failing_path None true /\
  _default_get_wait_time None true 1%N 2 = Ok (Some 1000) /\
  (2 ^ 1 - 1) * DEFAULT_SHORTEST_WAIT_TIME < 1000.
Proof.
  split; [left; reflexivity |]. split; [reflexivity |].
  unfold DEFAULT_SHORTEST_WAIT_TIME. lia.
Qed.

(** C2: the default callback returns [None] exactly when a response is
    present, it is successful and [has_failed] is false; in every other
    case it returns a number of milliseconds (it never raises). *)
Theorem default_wait_time_none_iff (response : option CdmHttpResponse.t)
  (has_failed : bool) (retry_number : N) (draw : Z) :
  (_default_get_wait_time response has_failed retry_number draw = Ok None <->
   exists r, response = Some r /\ CdmHttpResponse.is_successful r = true /\
             has_failed = false) /\
  ((exists r, response = Some r /\ CdmHttpResponse.is_successful r = true /\
              has_failed = false) \/
   exists w,
     _default_get_wait_time response has_failed retry_number draw = Ok (Some w)).
Proof.
  pose proof (pow2_pos retry_number) as Hpos.
  destruct (randint_range 0 (2 ^ Z.of_N retry_number) draw) as (k & Hk & _);
    [lia |].
  unfold _default_get_wait_time. rewrite Hk.
  destruct response as [r |]; [destruct (CdmHttpResponse.is_successful r) eqn:Hs |];
    destruct has_failed; simpl; split;
    try (right; eexists; reflexivity);
    try (left; eexists; repeat split; eassumption);
    split; try discriminate; try (intros _; eexists; repeat split; eassumption);
    intros (r' & Hr' & Hs' & Hf'); congruence.
Qed.

(** ** Heap facts *)

Lemma lookup_snoc_new (h : heap) (o : object) :
  (h ++ [o]) !! length h = Some o.
Proof. apply list_lookup_middle. reflexivity. Qed.

Lemma insert_snoc_new (h : heap) (o o' : object) :
  <[length h := o']> (h ++ [o]) = h ++ [o'].
Proof.
  replace (length h) with (length h + 0)%nat by lia.
  rewrite insert_app_r. reflexivity.
Qed.

Lemma lookup_snoc_old (h : heap) (o x : object) (l : loc) :
  h !! l = Some x -> (h ++ [o]) !! l = Some x.
Proof.
  intros Hl. rewrite lookup_app_l; [assumption |].
  eapply lookup_lt_Some; eassumption.
Qed.

Lemma setattr_request_new (h : heap) (r : CdmHttpRequest.t)
  (f : CdmHttpRequest.t -> CdmHttpRequest.t) :
  setattr_request (length h) f (h ++ [ObjRequest r]) =
    (Ok tt, h ++ [ObjRequest (f r)]).
Proof.
  unfold setattr_request. rewrite lookup_snoc_new, insert_snoc_new.
  reflexivity.
Qed.

Lemma get_adapter_snoc (h : heap) (o : object) (self : loc)
  (a : NetworkAdapter) :
  h !! self = Some (ObjAdapter a) ->
  get_adapter self (h ++ [o]) = (Ok a, h ++ [o]).
Proof.
  intros Hself. unfold get_adapter.
  rewrite (lookup_snoc_old _ _ _ _ Hself). reflexivity.
Qed.

Lemma get_adapter_snoc_self (h : heap) (a : NetworkAdapter) :
  get_adapter (length h) (h ++ [ObjAdapter a]) = (Ok a, h ++ [ObjAdapter a]).
Proof. unfold get_adapter. rewrite lookup_snoc_new. reflexivity. Qed.

(** ** Construction *)

(** C9: a freshly constructed adapter has timeout 2000 ms, maximum timeout
    10000 ms and 2 retries, the shortest wait unit is 500 ms and the
    default callback is installed; [fetch_network_config] on it returns
    the first three values under their keys. *)
Theorem fresh_adapter_defaults (h : heap) :
  exists a,
    __init__ h = (Ok (length h), h ++ [ObjAdapter a]) /\
    timeout a = NInt 2000 /\
    maximum_timeout a = NInt 10000 /\
    number_of_retries a = 2 /\
    DEFAULT_SHORTEST_WAIT_TIME = 500 /\
    wait_time_callback a = _default_get_wait_time /\
    fetch_network_config (length h) (h ++ [ObjAdapter a]) =
      (Ok (PyDict
             (<["numberOfRetries"%string := PyInt 2]>
                (<["maximumTimeout"%string := PyInt 10000]>
                   {["timeout"%string := PyInt 2000]}))),
       h ++ [ObjAdapter a]).
Proof.
  eexists. split; [reflexivity |]. repeat (split; [reflexivity |]).
  unfold fetch_network_config, bind.
  rewrite !get_adapter_snoc_self. reflexivity.
Qed.

(** ** Building a request *)

Lemma set_up_cdm_request_eval (h : heap) (self : loc)
  (a : NetworkAdapter) (path : string) (headers : gmap string string)
  (method : string) :
  h !! self = Some (ObjAdapter a) ->
  _set_up_cdm_request self path headers method h =
    (Ok (length h),
     h ++ [ObjRequest
             (CdmHttpRequest.mk path (Some headers) (Some method)
                (Some (timeout a)) (Some (maximum_timeout a))
                (Some (number_of_retries a)))]).
Proof.
  intros Hself. unfold _set_up_cdm_request, bind, alloc, ret.
  repeat (rewrite setattr_request_new
          || rewrite (get_adapter_snoc _ _ _ _ Hself)).
  reflexivity.
Qed.

(** C5 (as amended): for every target, the empty string included, and
    every method string, supported or not, [_set_up_cdm_request] on an
    adapter succeeds; it returns a new request holding the given url,
    headers and method and the adapter's current timeout, maximum timeout
    and number of retries; the heap is the old one with that request
    added, so the adapter and every existing object are as before. *)
Theorem set_up_cdm_request_succeeds (h : heap) (self : loc)
  (a : NetworkAdapter) (path : string) (headers : gmap string string)
  (method : string) :
  h !! self = Some (ObjAdapter a) ->
  exists request d,
    _set_up_cdm_request self path headers method h =
      (Ok request, h ++ [ObjRequest d]) /\
    request = length h /\
    d = CdmHttpRequest.mk path (Some headers) (Some method)
          (Some (timeout a)) (Some (maximum_timeout a))
          (Some (number_of_retries a)) /\
    (h ++ [ObjRequest d]) !! request = Some (ObjRequest d) /\
    forall l o, h !! l = Some o -> (h ++ [ObjRequest d]) !! l = Some o.
Proof.
  intros Hself. eexists _, _.
  split; [apply (set_up_cdm_request_eval _ _ _ _ _ _ Hself) |].
  split; [reflexivity |]. split; [reflexivity |].
  split; [apply lookup_snoc_new |].
  intros l o Hl. apply lookup_snoc_old. assumption.
Qed.

Lemma set_up_cdm_request_succeeds_witness :
  exists request d,
    _set_up_cdm_request 0%nat "" ∅ "BOGUS" fresh_heap =
      (Ok request, fresh_heap ++ [ObjRequest d]) /\
    request = length fresh_heap /\
    d = CdmHttpRequest.mk "" (Some ∅) (Some "BOGUS"%string)
          (Some (timeout initial_attributes))
          (Some (maximum_timeout initial_attributes))
          (Some (number_of_retries initial_attributes)) /\
    (fresh_heap ++ [ObjRequest d]) !! request = Some (ObjRequest d) /\
    forall l o, fresh_heap !! l = Some o ->
                (fresh_heap ++ [ObjRequest d]) !! l = Some o.
Proof.
  apply (set_up_cdm_request_succeeds fresh_heap 0%nat initial_attributes
           "" ∅ "BOGUS").
  reflexivity.
Defined.

(** C5 (as stated) fails: an empty target, and a method that is no HTTP
    verb, are both accepted. *)
Lemma set_up_cdm_request_accepts_anything :
  fst (_set_up_cdm_request 0%nat "" ∅ "GET" fresh_heap) = Ok 1%nat /\
  supported_method "BOGUS" = false /\
  fst (_set_up_cdm_request 0%nat "https://host/doc.json" ∅ "BOGUS" fresh_heap)
    = Ok 1%nat.
Proof. repeat split; reflexivity. Qed.

(** ** Reading through the client *)

Lemma read_eval (h : heap) (self request : loc) (a : NetworkAdapter)
  (client : CdmHttpClient) (r : CdmHttpRequest.t) :
  h !! self = Some (ObjAdapter a) ->
  _http_client a = Some client ->
  h !! request = Some (ObjRequest r) ->
  _read self request h =
    (match send_async client r (wait_time_callback a) with
     | Ok (Some res) =>
         if CdmHttpResponse.is_successful res
         then Ok (CdmHttpResponse.content res)
         else Raise (HTTPError (CdmHttpRequest.requested_url r)
                       (CdmHttpResponse.status_code res) "Failed to read"
                       (CdmHttpResponse.response_headers res))
     | Ok None => Raise (Exception "The result of a request is undefined.")
     | Raise e => Raise e
     end, h).
Proof.
  intros Hself Hclient Hreq.
  unfold _read, bind, get_adapter, get_request, lift, raise, ret.
  rewrite Hself, Hclient, Hreq.
  destruct (send_async client r (wait_time_callback a)) as [[res |] | e];
    try reflexivity.
  destruct (CdmHttpResponse.is_successful res); simpl; [reflexivity |].
  rewrite Hreq. reflexivity.
Qed.

(** C3: with the client's final outcome for the request at hand, [_read]
    returns the outcome's content when the outcome exists and is
    successful; raises an [HTTPError] carrying the outcome's status code
    and response headers when it exists and is unsuccessful; raises the
    "result is undefined" exception when the client produced no outcome;
    and whenever it returns a body, that body is the content of a
    successful outcome.  The heap is untouched in every case. *)
Theorem read_outcome (h : heap) (self request : loc) (a : NetworkAdapter)
  (client : CdmHttpClient) (r : CdmHttpRequest.t) :
  h !! self = Some (ObjAdapter a) ->
  _http_client a = Some client ->
  h !! request = Some (ObjRequest r) ->
  let outcome := send_async client r (wait_time_callback a) in
  (forall res,
      outcome = Ok (Some res) -> CdmHttpResponse.is_successful res = true ->
      _read self request h = (Ok (CdmHttpResponse.content res), h)) /\
  (forall res,
      outcome = Ok (Some res) -> CdmHttpResponse.is_successful res = false ->
      _read self request h =
        (Raise (HTTPError (CdmHttpRequest.requested_url r)
                  (CdmHttpResponse.status_code res) "Failed to read"
                  (CdmHttpResponse.response_headers res)), h)) /\
  (outcome = Ok None ->
   _read self request h =
     (Raise (Exception "The result of a request is undefined."), h)) /\
  (forall body,
      fst (_read self request h) = Ok body ->
      exists res,
        outcome = Ok (Some res) /\ CdmHttpResponse.is_successful res = true /\
        body = CdmHttpResponse.content res).
Proof.
  intros Hself Hclient Hreq outcome.
  rewrite (read_eval h self request a client r Hself Hclient Hreq).
  fold outcome. split; [| split; [| split]].
  - intros res -> Hs. rewrite Hs. reflexivity.
  - intros res -> Hs. rewrite Hs. reflexivity.
  - intros ->. reflexivity.
  - intros body Hbody. simpl in Hbody.
    destruct outcome as [[res |] | e]; try discriminate.
    destruct (CdmHttpResponse.is_successful res) eqn:Hs; [| discriminate].
    exists res. split; [reflexivity | split; [assumption | congruence]].
Qed.

Lemma read_outcome_witness :
  _read 0%nat 1%nat (stub_heap (Ok (Some (stub_response false)))) =
    (Raise (HTTPError "https://host/doc.json" 503 "Failed to read"
              {["Retry-After"%string := "1"%string]}),
     stub_heap (Ok (Some (stub_response false)))).
Proof.
  pose proof (read_outcome (stub_heap (Ok (Some (stub_response false))))
                0%nat 1%nat _ _ _ eq_refl eq_refl eq_refl) as H.
  cbv zeta in H. destruct H as (_ & H & _ & _).
  apply (H (stub_response false)); reflexivity.
Defined.

(** ** What a configuration update can touch *)

Lemma writes_only_ret {A} (self : loc) (x : A) : writes_only self (ret x).
Proof. intros h. split; [reflexivity | intros; reflexivity]. Qed.

Lemma writes_only_raise {A} (self : loc) (e : pyexn) :
  writes_only self (@raise A e).
Proof. intros h. split; [reflexivity | intros; reflexivity]. Qed.

Lemma writes_only_lift {A} (self : loc) (r : result A) :
  writes_only self (lift r).
Proof. intros h. split; [reflexivity | intros; reflexivity]. Qed.

Lemma writes_only_bind {A B} (self : loc) (m : M A) (k : A -> M B) :
  writes_only self m -> (forall x, writes_only self (k x)) ->
  writes_only self (bind m k).
Proof.
  intros Hm Hk h. unfold bind.
  destruct (Hm h) as [Hlen Hframe].
  destruct (m h) as [[x | e] h']; simpl in *.
  - destruct (Hk x h') as [Hlen' Hframe']. split.
    + congruence.
    + intros l Hl. rewrite Hframe', Hframe by assumption. reflexivity.
  - split; assumption.
Qed.

Lemma writes_only_setattr_adapter (self : loc)
  (f : NetworkAdapter -> NetworkAdapter) :
  writes_only self (setattr_adapter self f).
Proof.
  intros h. unfold setattr_adapter.
  destruct (h !! self) as [[a | r] |]; simpl;
    try (split; [reflexivity | intros; reflexivity]).
  split.
  - apply length_insert.
  - intros l Hl. apply list_lookup_insert_ne. congruence.
Qed.

#[local] Hint Resolve writes_only_ret writes_only_raise writes_only_lift
  writes_only_setattr_adapter : frame.

Lemma writes_only_update_field {A} (self : loc) (configs_json : pyval)
  (key : string) (conv : pyval -> result A)
  (store : A -> NetworkAdapter -> NetworkAdapter) :
  writes_only self (update_field self configs_json key conv store).
Proof.
  unfold update_field.
  apply writes_only_bind; [auto with frame |].
  intros present. destruct (is_not_None present); [| auto with frame].
  repeat (apply writes_only_bind; [auto with frame | intros ?]).
  auto with frame.
Qed.

Lemma writes_only_update_network_config `{PyRuntime} (self : loc)
  (config : string) :
  writes_only self (update_network_config self config).
Proof.
  unfold update_network_config.
  apply writes_only_bind; [auto with frame |]. intros configs_json.
  repeat first
    [ apply writes_only_update_field
    | apply writes_only_bind; [apply writes_only_update_field | intros _] ].
Qed.

(** C8: a request built by [_set_up_cdm_request] holds the adapter's
    timeout, maximum timeout and number of retries as they were when it was
    built, and a later [update_network_config] on the adapter, whatever its
    payload and whether it returns or raises, leaves that request object
    exactly as it was. *)
Theorem built_request_unaffected_by_update `{PyRuntime} (h : heap)
  (self : loc) (a : NetworkAdapter) (path : string)
  (headers : gmap string string) (method config : string) :
  h !! self = Some (ObjAdapter a) ->
  let built := _set_up_cdm_request self path headers method h in
  let updated := update_network_config self config (snd built) in
  exists request d,
    fst built = Ok request /\
    snd built !! request = Some (ObjRequest d) /\
    CdmHttpRequest.timeout d = Some (timeout a) /\
    CdmHttpRequest.maximum_timeout d = Some (maximum_timeout a) /\
    CdmHttpRequest.number_of_retries d = Some (number_of_retries a) /\
    snd updated !! request = Some (ObjRequest d).
Proof.
  intros Hself built updated. subst updated built.
  rewrite (set_up_cdm_request_eval h self a path headers method Hself).
  simpl fst; simpl snd.
  eexists (length h), _. split; [reflexivity |].
  split; [apply lookup_snoc_new |]. do 3 (split; [reflexivity |]).
  destruct (writes_only_update_network_config self config
              (h ++ [ObjRequest
                       (CdmHttpRequest.mk path (Some headers) (Some method)
                          (Some (timeout a)) (Some (maximum_timeout a))
                          (Some (number_of_retries a)))])) as [_ Hframe].
  rewrite Hframe; [apply lookup_snoc_new |].
  apply lookup_lt_Some in Hself. lia.
Qed.

Lemma built_request_unaffected_by_update_witness :
  let built :=
    _set_up_cdm_request 0%nat "https://host/doc.json" ∅ "GET" fresh_heap in
  let updated :=
    @update_network_config Lite.runtime 0%nat config_long_timeout (snd built) in
  exists request d,
    fst built = Ok request /\
    snd built !! request = Some (ObjRequest d) /\
    CdmHttpRequest.timeout d = Some (timeout initial_attributes) /\
    CdmHttpRequest.maximum_timeout d = Some (maximum_timeout initial_attributes) /\
    CdmHttpRequest.number_of_retries d
      = Some (number_of_retries initial_attributes) /\
    snd updated !! request = Some (ObjRequest d).
Proof.
  apply (@built_request_unaffected_by_update Lite.runtime fresh_heap 0%nat
           initial_attributes "https://host/doc.json" ∅ "GET"
           config_long_timeout).
  reflexivity.
Defined.

(** ** Configuration updates *)

(** C10: when [json.loads] rejects the text, [update_network_config]
    raises that error and the heap, hence the adapter's timeout, maximum
    timeout and number of retries, is exactly as before the call. *)
Theorem update_rejected_text_changes_nothing `{PyRuntime} (h : heap)
  (self : loc) (config : string) (e : pyexn) :
  json_loads config = Raise e ->
  update_network_config self config h = (Raise e, h).
Proof.
  intros Hparse. unfold update_network_config, bind, lift.
  rewrite Hparse. reflexivity.
Qed.

Lemma update_rejected_text_changes_nothing_witness :
  @update_network_config Lite.runtime 0%nat "{timeout: 5" fresh_heap =
    (Raise JSONDecodeError, fresh_heap).
Proof.
  apply (@update_rejected_text_changes_nothing Lite.runtime fresh_heap 0%nat
           "{timeout: 5" JSONDecodeError).
  reflexivity.
Defined.

(** ** Integers as doubles *)

Lemma digits2_pos_lower (p : positive) :
  2 ^ (Z.pos (digits2_pos p) - 1) <= Z.pos p.
Proof.
  induction p as [p IH | p IH |]; simpl digits2_pos.
  - rewrite Pos2Z.inj_succ.
    replace (Z.succ (Z.pos (digits2_pos p)) - 1)
      with (Z.succ (Z.pos (digits2_pos p) - 1)) by lia.
    rewrite Z.pow_succ_r by lia. lia.
  - rewrite Pos2Z.inj_succ.
    replace (Z.succ (Z.pos (digits2_pos p)) - 1)
      with (Z.succ (Z.pos (digits2_pos p) - 1)) by lia.
    rewrite Z.pow_succ_r by lia. lia.
  - simpl. lia.
Qed.

Lemma digits2_pos_le_53 (p : positive) :
  Z.pos p < 2 ^ 53 -> Z.pos (digits2_pos p) <= 53.
Proof.
  intros Hp. pose proof (digits2_pos_lower p) as Hl.
  destruct (Z_le_gt_dec (Z.pos (digits2_pos p)) 53) as [| Hgt]; [assumption |].
  exfalso.
  assert (2 ^ 53 <= 2 ^ (Z.pos (digits2_pos p) - 1))
    by (apply Z.pow_le_mono_r; lia).
  lia.
Qed.

Lemma iter_xO_digits (k p : positive) :
  digits2_pos (Pos.iter xO p k) = (digits2_pos p + k)%positive.
Proof.
  revert p. induction k using Pos.peano_ind; intros p.
  - simpl. lia.
  - rewrite Pos.iter_succ. simpl. rewrite IHk. lia.
Qed.

Lemma iter_xO_value (k p : positive) :
  Z.pos (Pos.iter xO p k) = Z.pos p * 2 ^ Z.pos k.
Proof.
  revert p. induction k using Pos.peano_ind; intros p.
  - simpl. lia.
  - rewrite Pos.iter_succ, Pos2Z.inj_xO, IHk, Pos2Z.inj_succ, Z.pow_succ_r
      by lia.
    lia.
Qed.

(** A mantissa of 53 bits at an exponent within range needs no rounding. *)
Lemma binary_round_aux_canonical (s : bool) (mz : positive) (ez : Z) :
  Z.pos (digits2_pos mz) = 53 -> -52 <= ez <= 0 ->
  binary_round_aux 53 1024 s (Z.pos mz) ez loc_Exact = S754_finite s mz ez.
Proof.
  intros Hmz Hez. unfold binary_round_aux, shr_fexp.
  assert (Hz : fexp 53 1024 (Z.pos (digits2_pos mz) + ez) - ez = 0).
  { unfold fexp, emin. lia. }
  cbn [Zdigits2]. rewrite Hz.
  cbn [shr shr_record_of_loc shr_m loc_of_shr_record round_nearest_even
       Zdigits2].
  rewrite Hz. cbn [shr shr_m].
  destruct (Z.leb_spec ez (1024 - 53)); [reflexivity | lia].
Qed.

Lemma binary_round_exact (s : bool) (p : positive) :
  Z.pos p < 2 ^ 53 ->
  exists m e,
    binary_round 53 1024 s p 0 = S754_finite s m e /\
    e <= 0 /\ Z.pos m = Z.pos p * 2 ^ (- e).
Proof.
  intros Hp. pose proof (digits2_pos_le_53 p Hp) as Hd.
  unfold binary_round.
  assert (Hf : fexp 53 1024 (Z.pos (digits2_pos p) + 0)
               = Z.pos (digits2_pos p) - 53).
  { unfold fexp, emin. lia. }
  rewrite Hf. unfold shl_align.
  destruct (Z.pos (digits2_pos p) - 53 - 0) as [| q | q] eqn:Hq; try lia.
  - exists p, 0. rewrite binary_round_aux_canonical by lia.
    split; [reflexivity |]. split; [lia |]. simpl. lia.
  - exists (Pos.iter xO p q), (Z.pos (digits2_pos p) - 53).
    rewrite binary_round_aux_canonical.
    + split; [reflexivity |]. split; [lia |].
      rewrite iter_xO_value. f_equal. f_equal. lia.
    + rewrite iter_xO_digits. lia.
    + lia.
Qed.

(** [float(z)] is exact for [|z| < 2^53]: it does not overflow and the
    double compares equal to the integer. *)
Lemma int_to_float_exact (z : Z) :
  Z.abs z < 2 ^ 53 ->
  exists f, int_to_float z = Ok f /\ num_eq (NFloat f) (NInt z) = true.
Proof.
  intros Hz. unfold int_to_float, prec64, emax64.
  destruct z as [| p | p]; cbn [binary_normalize].
  - eexists; split; reflexivity.
  - destruct (binary_round_exact false p) as (m & e & -> & He & Hm); [lia |].
    eexists; split; [reflexivity |].
    unfold num_eq, num_compare, num_xval, float_xval, xval_compare,
      fin_compare, cond_Zopp.
    rewrite Z.min_l by lia.
    replace (e - e) with 0 by lia. replace (0 - e) with (- e) by lia.
    match goal with
    | |- match ?x ?= ?y with _ => _ end = true =>
        assert (Hxy : x = y) by (rewrite Z.pow_0_r; lia);
        rewrite Hxy, Z.compare_refl; reflexivity
    end.
  - destruct (binary_round_exact true p) as (m & e & -> & He & Hm); [lia |].
    eexists; split; [reflexivity |].
    unfold num_eq, num_compare, num_xval, float_xval, xval_compare,
      fin_compare, cond_Zopp.
    rewrite Z.min_l by lia.
    replace (e - e) with 0 by lia. replace (0 - e) with (- e) by lia.
    match goal with
    | |- match ?x ?= ?y with _ => _ end = true =>
        assert (Hxy : x = y) by (rewrite Z.pow_0_r; lia);
        rewrite Hxy, Z.compare_refl; reflexivity
    end.
Qed.

(** ** Running a configuration update *)

Lemma update_field_eval {A} (h : heap) (self : loc) (a : NetworkAdapter)
  (d : gmap string pyval) (key : string) (conv : pyval -> result A)
  (store : A -> NetworkAdapter -> NetworkAdapter) :
  h !! self = Some (ObjAdapter a) ->
  update_field self (PyDict d) key conv store h =
    match d !! key with
    | Some v =>
        if is_not_None v then
          match conv v with
          | Ok x => (Ok tt, <[self := ObjAdapter (store x a)]> h)
          | Raise e => (Raise e, h)
          end
        else (Ok tt, h)
    | None => (Ok tt, h)
    end.
Proof.
  intros Hself.
  unfold update_field, bind, lift, py_get, py_getitem, ret, setattr_adapter.
  destruct (d !! key) as [v |]; simpl; [| reflexivity].
  destruct (is_not_None v); [| reflexivity].
  destruct (conv v); [rewrite Hself |]; reflexivity.
Qed.

Lemma update_field_left_alone {A} (h : heap) (self : loc)
  (d : gmap string pyval) (key : string) (conv : pyval -> result A)
  (store : A -> NetworkAdapter -> NetworkAdapter) :
  leaves_alone d key ->
  update_field self (PyDict d) key conv store h = (Ok tt, h).
Proof.
  unfold leaves_alone, update_field, bind, lift, py_get, ret.
  intros ->. reflexivity.
Qed.

Lemma lookup_self_insert (h : heap) (self : loc) (o o' : object) :
  h !! self = Some o -> <[self := o']> h !! self = Some o'.
Proof.
  intros Hself. apply list_lookup_insert_eq.
  eapply lookup_lt_Some; eassumption.
Qed.

(** One block of the update when the conversion cannot fail: the adapter
    is replaced by one that differs, if at all, in the field stored. *)
Lemma update_field_step {A} (h : heap) (self : loc) (a0 a : NetworkAdapter)
  (d : gmap string pyval) (key : string) (conv : pyval -> result A)
  (store : A -> NetworkAdapter -> NetworkAdapter) :
  h !! self = Some (ObjAdapter a0) ->
  (d !! key = None \/ exists v x, d !! key = Some v /\ is_not_None v = true
                                  /\ conv v = Ok x) ->
  update_field self (PyDict d) key conv store (<[self := ObjAdapter a]> h) =
    (Ok tt,
     <[self := ObjAdapter
                 match d !! key with
                 | Some v =>
                     match conv v with
                     | Ok x => store x a
                     | Raise _ => a
                     end
                 | None => a
                 end]> h).
Proof.
  intros Hself Hcase.
  rewrite (update_field_eval _ self a) by (eapply lookup_self_insert; eassumption).
  destruct Hcase as [-> | (v & x & -> & -> & ->)]; [reflexivity |].
  rewrite list_insert_insert_eq. reflexivity.
Qed.

Lemma timeout_key_cases `{PyRuntime} (d : gmap string pyval) (key : string) :
  (forall v, d !! key = Some v -> is_number v) ->
  (forall z, d !! key = Some (PyInt z) -> exists f, int_to_float z = Ok f) ->
  d !! key = None \/
  exists v f, d !! key = Some v /\ is_not_None v = true /\ py_float v = Ok f.
Proof.
  intros Hnum Hconv. destruct (d !! key) as [v |] eqn:Hv; [right | left; reflexivity].
  specialize (Hnum v eq_refl).
  destruct v; simpl in Hnum; try contradiction.
  - destruct (Hconv z eq_refl) as (f & Hf). exists (PyInt z), f. auto.
  - exists (PyFloat f), f. auto.
Qed.

Lemma retries_key_cases `{PyRuntime} (d : gmap string pyval) (key : string) :
  (forall v, d !! key = Some v -> exists z, v = PyInt z /\ 0 <= z) ->
  d !! key = None \/
  exists v z, d !! key = Some v /\ is_not_None v = true /\ py_int v = Ok z.
Proof.
  intros Hint. destruct (d !! key) as [v |] eqn:Hv; [right | left; reflexivity].
  destruct (Hint v eq_refl) as (z & -> & _). exists (PyInt z), z. auto.
Qed.

(** The update on a well-formed payload whose timeouts [float()] accepts:
    it returns, and the adapter is rewritten field by field. *)
Lemma update_well_formed_eval `{PyRuntime} (h : heap) (self : loc)
  (a : NetworkAdapter) (config : string) (d : gmap string pyval) :
  h !! self = Some (ObjAdapter a) ->
  json_loads config = Ok (PyDict d) ->
  well_formed_payload d ->
  timeouts_convertible d ->
  exists a',
    update_network_config self config h = (Ok tt, <[self := ObjAdapter a']> h) /\
    match d !! "timeout" with
    | Some v => exists f, py_float v = Ok f /\ timeout a' = NFloat f
    | None => timeout a' = timeout a
    end /\
    match d !! "maximumTimeout" with
    | Some v => exists f, py_float v = Ok f /\ maximum_timeout a' = NFloat f
    | None => maximum_timeout a' = maximum_timeout a
    end /\
    match d !! "numberOfRetries" with
    | Some v => v = PyInt (number_of_retries a')
    | None => number_of_retries a' = number_of_retries a
    end /\
    wait_time_callback a' = wait_time_callback a /\
    _http_client a' = _http_client a.
Proof.
  intros Hself Hparse (Ht & Hm & Hr) (Hct & Hcm).
  pose proof (timeout_key_cases d "timeout" Ht Hct) as Ct.
  pose proof (timeout_key_cases d "maximumTimeout" Hm Hcm) as Cm.
  pose proof (retries_key_cases d "numberOfRetries" Hr) as Cr.
  eexists. split.
  - unfold update_network_config, bind, lift. rewrite Hparse.
    rewrite <- (list_insert_id h self (ObjAdapter a) Hself) at 1.
    rewrite (update_field_step h self a) by assumption.
    rewrite (update_field_step h self a) by assumption.
    rewrite (update_field_step h self a) by assumption.
    reflexivity.
  - destruct Ct as [Et | (vt & ft & Et & _ & Eft)];
      destruct Cm as [Em | (vm & fm & Em & _ & Efm)];
      destruct Cr as [Er | (vr & zr & Er & _ & Ezr)];
      rewrite Et, Em, Er; rewrite ?Eft, ?Efm, ?Ezr; cbn;
      repeat match goal with
        | |- _ /\ _ => split
        | |- exists _, _ => eexists
        | |- _ => reflexivity
        end;
      destruct (Hr vr Er) as (z & -> & _); cbn in Ezr; congruence.
Qed.

(** C6 (as amended): for a well-formed payload whose timeout and
    maximumTimeout values [float()] accepts, [update_network_config]
    returns and assigns exactly the fields present: timeout and maximum
    timeout become the floats of the given values, the number of retries
    the given integer; a field the payload omits keeps its value, the
    callback and the client are untouched; and two payloads that agree on
    the three known keys have the same effect, so other keys have none. *)
Theorem update_overwrites_present_fields `{PyRuntime} (h : heap) (self : loc)
  (a : NetworkAdapter) (config : string) (d : gmap string pyval) :
  h !! self = Some (ObjAdapter a) ->
  json_loads config = Ok (PyDict d) ->
  well_formed_payload d ->
  timeouts_convertible d ->
  (exists a',
      update_network_config self config h = (Ok tt, <[self := ObjAdapter a']> h) /\
      match d !! "timeout" with
      | Some v => exists f, py_float v = Ok f /\ timeout a' = NFloat f
      | None => timeout a' = timeout a
      end /\
      match d !! "maximumTimeout" with
      | Some v => exists f, py_float v = Ok f /\ maximum_timeout a' = NFloat f
      | None => maximum_timeout a' = maximum_timeout a
      end /\
      match d !! "numberOfRetries" with
      | Some v => v = PyInt (number_of_retries a')
      | None => number_of_retries a' = number_of_retries a
      end /\
      wait_time_callback a' = wait_time_callback a /\
      _http_client a' = _http_client a) /\
  (forall config2 d2,
      json_loads config2 = Ok (PyDict d2) -> same_known_keys d d2 ->
      update_network_config self config2 h = update_network_config self config h).
Proof.
  intros Hself Hparse Hwf Hconv. split.
  - apply update_well_formed_eval; assumption.
  - intros config2 d2 Hparse2 (E1 & E2 & E3).
    unfold update_network_config, bind, lift. rewrite Hparse, Hparse2.
    unfold update_field, bind, lift, py_get, py_getitem.
    rewrite <- E1, <- E2, <- E3. reflexivity.
Qed.

Lemma update_overwrites_present_fields_witness :
  exists a',
    @update_network_config Lite.runtime 0%nat config_retries_only fresh_heap =
      (Ok tt, [ObjAdapter a']) /\
    number_of_retries a' = 7 /\
    timeout a' = NInt 2000 /\
    maximum_timeout a' = NInt 10000.
Proof.
  destruct (@update_overwrites_present_fields Lite.runtime fresh_heap 0%nat
              initial_attributes config_retries_only
              (<["verbose"%string := PyBool true]>
                 {["numberOfRetries"%string := PyInt 7]}))
    as [(a' & Hrun & Ht & Hm & Hr & _) _].
  - reflexivity.
  - vm_compute. reflexivity.
  - repeat split; by_lookup. exists 7. split; [reflexivity | lia].
  - split; by_lookup.
  - exists a'. split; [exact Hrun |].
    vm_compute in Hr. injection Hr as Hr.
    split; [symmetry; exact Hr |]. split; [exact Ht | exact Hm].
Defined.

(** C6 (as stated) fails: this payload is well formed and carries
    maximumTimeout and numberOfRetries, but the integer given for
    maximumTimeout, a 1 followed by 309 zeros, overflows [float()]; the
    update raises and neither field is overwritten. *)
Lemma update_skips_fields_on_overflow :
  exists d,
    @json_loads Lite.runtime config_huge_maximum = Ok (PyDict d) /\
    well_formed_payload d /\
    d !! "maximumTimeout"%string = Some (PyInt (10 ^ 309)) /\
    d !! "numberOfRetries"%string = Some (PyInt 5) /\
    @update_network_config Lite.runtime 0%nat config_huge_maximum fresh_heap =
      (Raise OverflowError, fresh_heap).
Proof.
  exists (<["numberOfRetries"%string := PyInt 5]>
            {["maximumTimeout"%string := PyInt (10 ^ 309)]}).
  split; [vm_compute; reflexivity |]. split.
  - repeat split; by_lookup; [exact I |].
    exists 5. split; [reflexivity | lia].
  - split; [vm_compute; reflexivity |].
    split; vm_compute; reflexivity.
Qed.

(** ** Export after update *)

Lemma fetch_network_config_eval (h : heap) (self : loc) (a : NetworkAdapter) :
  h !! self = Some (ObjAdapter a) ->
  fetch_network_config self h =
    (Ok (PyDict
           (<["numberOfRetries" := PyInt (number_of_retries a)]>
              (<["maximumTimeout" := num_to_py (maximum_timeout a)]>
                 {["timeout" := num_to_py (timeout a)]}))), h).
Proof.
  intros Hself. unfold fetch_network_config, bind, get_adapter, ret.
  do 3 (rewrite Hself; cbv beta iota). reflexivity.
Qed.

Lemma reflects_given_float `{PyRuntime} (v : pyval) (f : spec_float) :
  is_number v -> py_float v = Ok f -> reflects_given v (PyFloat f).
Proof.
  intros Hnum Hf. destruct v; simpl in Hnum; try contradiction; simpl in *.
  - exists f. split; [assumption |]. split; [reflexivity |].
    intros Hz. destruct (int_to_float_exact z Hz) as (f' & Hf' & Heq).
    congruence.
  - congruence.
Qed.

(** C7 (as amended): for a well-formed payload whose timeout and
    maximumTimeout values [float()] accepts, [fetch_network_config] right
    after [update_network_config] returns a snapshot in which timeout and
    maximumTimeout, where the payload gives them, are the floats of the
    given values (the given float itself; for an integer the double it
    rounds to, equal to the integer when its magnitude is below 2^53),
    numberOfRetries is the given integer, and a key the payload omits
    holds the prior value. *)
Theorem fetch_after_update `{PyRuntime} (h : heap) (self : loc)
  (a : NetworkAdapter) (config : string) (d : gmap string pyval) :
  h !! self = Some (ObjAdapter a) ->
  json_loads config = Ok (PyDict d) ->
  well_formed_payload d ->
  timeouts_convertible d ->
  exists snap h',
    update_network_config self config h = (Ok tt, h') /\
    fetch_network_config self h' = (Ok (PyDict snap), h') /\
    match d !! "timeout" with
    | Some v => exists got, snap !! "timeout" = Some got /\ reflects_given v got
    | None => snap !! "timeout" = Some (num_to_py (timeout a))
    end /\
    match d !! "maximumTimeout" with
    | Some v =>
        exists got, snap !! "maximumTimeout" = Some got /\ reflects_given v got
    | None => snap !! "maximumTimeout" = Some (num_to_py (maximum_timeout a))
    end /\
    match d !! "numberOfRetries" with
    | Some v => snap !! "numberOfRetries" = Some v
    | None => snap !! "numberOfRetries" = Some (PyInt (number_of_retries a))
    end.
Proof.
  intros Hself Hparse Hwf Hconv.
  destruct (update_well_formed_eval h self a config d Hself Hparse Hwf Hconv)
    as (a' & Hrun & Ht & Hm & Hr & _).
  destruct Hwf as (Wt & Wm & _).
  eexists _, _. split; [exact Hrun |].
  split.
  { apply fetch_network_config_eval.
    eapply lookup_self_insert; eassumption. }
  split; [| split].
  - rewrite lookup_insert_ne, lookup_insert_ne, lookup_singleton_eq by discriminate.
    destruct (d !! "timeout") as [v |] eqn:Ev.
    + destruct Ht as (f & Hf & ->). eexists; split; [reflexivity |].
      apply reflects_given_float; auto.
    + rewrite Ht. reflexivity.
  - rewrite lookup_insert_ne, lookup_insert_eq by discriminate.
    destruct (d !! "maximumTimeout") as [v |] eqn:Ev.
    + destruct Hm as (f & Hf & ->). eexists; split; [reflexivity |].
      apply reflects_given_float; auto.
    + rewrite Hm. reflexivity.
  - rewrite lookup_insert_eq.
    destruct (d !! "numberOfRetries") as [v |] eqn:Ev; congruence.
Qed.

Lemma fetch_after_update_witness :
  exists snap h',
    @update_network_config Lite.runtime 0%nat config_long_timeout fresh_heap =
      (Ok tt, h') /\
    fetch_network_config 0%nat h' = (Ok (PyDict snap), h') /\
    (exists got, snap !! "timeout" = Some got /\
                 py_num_eq got (PyInt 20000) = true) /\
    snap !! "maximumTimeout" = Some (PyInt 10000) /\
    snap !! "numberOfRetries" = Some (PyInt 2).
Proof.
  destruct (@fetch_after_update Lite.runtime fresh_heap 0%nat
              initial_attributes config_long_timeout
              {["timeout"%string := PyInt 20000]})
    as (snap & h' & Hrun & Hfetch & Ht & Hm & Hr).
  - reflexivity.
  - vm_compute. reflexivity.
  - repeat split; by_lookup. exact I.
  - split; by_lookup. eexists. vm_compute. reflexivity.
  - exists snap, h'. split; [exact Hrun |]. split; [exact Hfetch |].
    split; [| split; [exact Hm | exact Hr]].
    change ({["timeout"%string := PyInt 20000]} !! "timeout"%string)
      with (Some (PyInt 20000)) in Ht.
    destruct Ht as (got & Hgot & f & _ & -> & Hexact).
    exists (PyFloat f). split; [exact Hgot |]. apply Hexact. vm_compute. reflexivity.
Defined.

(** C7 (as stated) fails: the payload gives timeout [2^53 + 1]; the
    snapshot holds the double [2^52 * 2^1], which is not equal to it. *)
Lemma fetch_after_update_rounds :
  exists d h',
    @json_loads Lite.runtime config_odd_timeout = Ok (PyDict d) /\
    well_formed_payload d /\
    d !! "timeout"%string = Some (PyInt 9007199254740993) /\
    @update_network_config Lite.runtime 0%nat config_odd_timeout fresh_heap =
      (Ok tt, h') /\
    fetch_network_config 0%nat h' =
      (Ok (PyDict
             (<["numberOfRetries"%string := PyInt 2]>
                (<["maximumTimeout"%string := PyInt 10000]>
                   {["timeout"%string :=
                       PyFloat (S754_finite false 4503599627370496 1)]}))),
       h') /\
    py_num_eq (PyFloat (S754_finite false 4503599627370496 1))
      (PyInt 9007199254740993) = false.
Proof.
  exists {["timeout"%string := PyInt 9007199254740993]}. eexists.
  split; [vm_compute; reflexivity |]. split.
  - repeat split; by_lookup. exact I.
  - split; [vm_compute; reflexivity |].
    split; [vm_compute; reflexivity |].
    split; vm_compute; reflexivity.
Qed.

(** ** The timeout invariant *)

Lemma num_le_initial :
  num_le (timeout initial_attributes) (maximum_timeout initial_attributes) = true.
Proof. reflexivity. Qed.

(** C4 (as amended): [timeout <= maximum_timeout] holds for a freshly
    constructed adapter; a request carries the adapter's timeout and
    maximum timeout as of the moment it was built, so it satisfies the
    invariant exactly when the adapter did then; and an update whose
    payload leaves timeout and maximumTimeout alone preserves the
    invariant, whether it returns or raises.  Nothing is validated: other
    updates are not covered. *)
Theorem timeout_invariant_where_it_holds `{PyRuntime} :
  (forall h,
      exists a, snd (__init__ h) !! length h = Some (ObjAdapter a) /\
                timeout_invariant a) /\
  (forall h self a path headers method,
      h !! self = Some (ObjAdapter a) ->
      exists d,
        snd (_set_up_cdm_request self path headers method h) !! length h
          = Some (ObjRequest d) /\
        (request_invariant d <-> timeout_invariant a)) /\
  (forall h self a config d,
      h !! self = Some (ObjAdapter a) ->
      json_loads config = Ok (PyDict d) ->
      leaves_alone d "timeout" ->
      leaves_alone d "maximumTimeout" ->
      timeout_invariant a ->
      exists a',
        snd (update_network_config self config h) !! self = Some (ObjAdapter a') /\
        timeout_invariant a').
Proof.
  split; [| split].
  - intros h. exists initial_attributes. split.
    + apply lookup_snoc_new.
    + exact num_le_initial.
  - intros h self a path headers method Hself.
    rewrite (set_up_cdm_request_eval h self a path headers method Hself).
    eexists. split; [apply lookup_snoc_new |].
    unfold request_invariant, timeout_invariant. simpl. split.
    + intros (t & m & [= <-] & [= <-] & Hle). exact Hle.
    + intros Hle. eauto.
  - intros h self a config d Hself Hparse Lt Lm Hinv.
    unfold update_network_config, bind, lift. rewrite Hparse.
    rewrite (update_field_left_alone h self d "timeout") by assumption.
    rewrite (update_field_left_alone h self d "maximumTimeout") by assumption.
    rewrite (update_field_eval h self a) by assumption.
    destruct (d !! "numberOfRetries") as [v |]; [| eauto].
    destruct (is_not_None v); [| eauto].
    destruct (py_int v) as [z | e]; [| eauto].
    eexists. split; [eapply lookup_self_insert; eassumption |]. exact Hinv.
Qed.

Lemma timeout_invariant_where_it_holds_witness :
  (exists a, snd (__init__ []) !! 0%nat = Some (ObjAdapter a) /\
             timeout_invariant a) /\
  (exists d,
      snd (_set_up_cdm_request 0%nat "https://host/doc.json" ∅ "GET" fresh_heap)
        !! 1%nat = Some (ObjRequest d) /\
      request_invariant d) /\
  (exists a',
      snd (@update_network_config Lite.runtime 0%nat config_retries_only fresh_heap)
        !! 0%nat = Some (ObjAdapter a') /\
      timeout_invariant a').
Proof.
  destruct (@timeout_invariant_where_it_holds Lite.runtime) as (H1 & H2 & H3).
  split; [exact (H1 []) | split].
  - destruct (H2 fresh_heap 0%nat initial_attributes "https://host/doc.json"%string
                ∅ "GET"%string eq_refl) as (d & Hd & Hiff).
    exists d. split; [exact Hd |]. apply Hiff. exact num_le_initial.
  - apply (H3 fresh_heap 0%nat initial_attributes config_retries_only
             (<["verbose"%string := PyBool true]>
                {["numberOfRetries"%string := PyInt 7]})).
    + reflexivity.
    + vm_compute. reflexivity.
    + vm_compute. reflexivity.
    + vm_compute. reflexivity.
    + exact num_le_initial.
Defined.

(** C4 (as stated) fails: after [{"timeout": 20000}] on a fresh adapter
    the timeout is 20000.0 and the maximum timeout still 10000, and a
    request built next carries both. *)
Lemma update_breaks_timeout_invariant :
  exists a' d',
    @update_network_config Lite.runtime 0%nat config_long_timeout fresh_heap =
      (Ok tt, [ObjAdapter a']) /\
    num_le (timeout a') (maximum_timeout a') = false /\
    snd (_set_up_cdm_request 0%nat "https://host/doc.json" ∅ "GET" [ObjAdapter a'])
      !! 1%nat = Some (ObjRequest d') /\
    CdmHttpRequest.timeout d' = Some (timeout a') /\
    CdmHttpRequest.maximum_timeout d' = Some (maximum_timeout a').
Proof.
  eexists _, _. split; [vm_compute; reflexivity |].
  split; [vm_compute; reflexivity |].
  split; [vm_compute; reflexivity |].
  split; reflexivity.
Qed.

(** ** The fragment decoder on sample texts *)

Example loads_object :
  Lite.loads config_retries_only =
    Ok (PyDict (<["verbose" := PyBool true]> {["numberOfRetries" := PyInt 7]})).
Proof. vm_compute. reflexivity. Qed.

Example loads_nested :
  Lite.loads " [1, -2, null, {}, [true]] " =
    Ok (PyList [PyInt 1; PyInt (-2); PyNone; PyDict ∅; PyList [PyBool true]]).
Proof. vm_compute. reflexivity. Qed.

Example loads_rejects :
  Lite.loads "{" = Raise JSONDecodeError /\
  Lite.loads "01" = Raise JSONDecodeError /\
  Lite.loads "[1,]" = Raise JSONDecodeError /\
  Lite.loads "nul" = Raise JSONDecodeError /\
  Lite.loads "{} x" = Raise JSONDecodeError.
Proof. repeat split; vm_compute; reflexivity. Qed.

(** A conversion that fails in the middle leaves the earlier assignment
    in place: here timeout is stored before [float("soon")] raises. *)
Example update_stops_at_bad_value :
  exists a',
    @update_network_config Lite.runtime 0%nat
      ("{" ++ Lite.quoted "timeout" ++ ": 5, " ++ Lite.quoted "maximumTimeout"
           ++ ": " ++ Lite.quoted "soon" ++ "}") fresh_heap =
      (Raise ValueError, [ObjAdapter a']) /\
    num_eq (timeout a') (NInt 5) = true /\
    maximum_timeout a' = NInt 10000.
Proof.
  eexists. split; [vm_compute; reflexivity |]. split; reflexivity.
Qed.

(** * Further properties *)

(** ** The update, block by block *)

Lemma update_field_at {A} (h : heap) (self : loc) (a0 a : NetworkAdapter)
  (d : gmap string pyval) (key : string) (conv : pyval -> result A)
  (store : A -> NetworkAdapter -> NetworkAdapter) :
  h !! self = Some (ObjAdapter a0) ->
  update_field self (PyDict d) key conv store (<[self := ObjAdapter a]> h) =
    match field_outcome d key conv with
    | Ok (Some x) => (Ok tt, <[self := ObjAdapter (store x a)]> h)
    | Ok None => (Ok tt, <[self := ObjAdapter a]> h)
    | Raise e => (Raise e, <[self := ObjAdapter a]> h)
    end.
Proof.
  intros Hself.
  rewrite (update_field_eval _ self a) by (eapply lookup_self_insert; eassumption).
  unfold field_outcome.
  destruct (d !! key) as [v |]; [| reflexivity].
  destruct (is_not_None v); [| reflexivity].
  destruct (conv v); [| reflexivity].
  rewrite list_insert_insert_eq. reflexivity.
Qed.

(** The whole update on an object payload, as the three decisions in
    order. *)
Lemma update_dict_eval `{PyRuntime} (h : heap) (self : loc)
  (a : NetworkAdapter) (config : string) (d : gmap string pyval) :
  h !! self = Some (ObjAdapter a) ->
  json_loads config = Ok (PyDict d) ->
  update_network_config self config h =
    match field_outcome d "timeout" py_float with
    | Raise e => (Raise e, h)
    | Ok ot =>
        let a1 := match ot with
                  | Some f => set_timeout (NFloat f) a
                  | None => a
                  end in
        match field_outcome d "maximumTimeout" py_float with
        | Raise e => (Raise e, <[self := ObjAdapter a1]> h)
        | Ok om =>
            let a2 := match om with
                      | Some f => set_maximum_timeout (NFloat f) a1
                      | None => a1
                      end in
            match field_outcome d "numberOfRetries" py_int with
            | Raise e => (Raise e, <[self := ObjAdapter a2]> h)
            | Ok orr =>
                (Ok tt,
                 <[self := ObjAdapter
                             match orr with
                             | Some z => set_number_of_retries z a2
                             | None => a2
                             end]> h)
            end
        end
    end.
Proof.
  intros Hself Hparse.
  unfold update_network_config, bind, lift. rewrite Hparse.
  rewrite <- (list_insert_id h self (ObjAdapter a) Hself) at 1.
  rewrite (update_field_at h self a a) by assumption.
  destruct (field_outcome d "timeout" py_float) as [[f |] | e];
    [| | rewrite (list_insert_id h self (ObjAdapter a) Hself); reflexivity];
    rewrite (update_field_at h self a) by assumption;
    (destruct (field_outcome d "maximumTimeout" py_float) as [[g |] | e];
     [| | reflexivity]);
    rewrite (update_field_at h self a) by assumption;
    destruct (field_outcome d "numberOfRetries" py_int) as [[z |] | e];
    reflexivity.
Qed.

(** A text that parses to anything but an object. *)
Lemma update_not_dict_eval `{PyRuntime} (h : heap) (self : loc)
  (config : string) (v : pyval) :
  json_loads config = Ok v ->
  (forall d, v <> PyDict d) ->
  update_network_config self config h = (Raise AttributeError, h).
Proof.
  intros Hparse Hnd. unfold update_network_config, bind, lift.
  rewrite Hparse. unfold update_field, bind, lift, py_get.
  destruct v; try reflexivity. destruct (Hnd d eq_refl).
Qed.

Lemma update_unparsed_eval `{PyRuntime} (h : heap) (self : loc)
  (config : string) (e : pyexn) :
  json_loads config = Raise e ->
  update_network_config self config h = (Raise e, h).
Proof.
  intros Hparse. unfold update_network_config, bind, lift.
  rewrite Hparse. reflexivity.
Qed.

(** The three shapes an update takes, by what [json.loads] gives. *)
Ltac update_cases Hself config :=
  let v := fresh "v" in
  let e := fresh "e" in
  let Hparse := fresh "Hparse" in
  destruct (json_loads config) as [v | e] eqn:Hparse;
  [ destruct v;
    first
      [ rewrite (update_dict_eval _ _ _ _ _ Hself Hparse)
      | rewrite (update_not_dict_eval _ _ _ _ Hparse) by (intros; discriminate) ]
  | rewrite (update_unparsed_eval _ _ _ _ Hparse) ].

(** X1: whatever the text and whether the call returns or raises,
    [update_network_config] creates no object and leaves every object
    other than the adapter as it was. *)
Theorem update_touches_only_adapter `{PyRuntime} (h : heap) (self l : loc)
  (config : string) :
  l <> self ->
  length (snd (update_network_config self config h)) = length h /\
  snd (update_network_config self config h) !! l = h !! l.
Proof.
  intros Hl.
  destruct (writes_only_update_network_config self config h) as [Hlen Hframe].
  split; [exact Hlen | apply Hframe; exact Hl].
Qed.

Lemma update_touches_only_adapter_witness :
  length (snd (@update_network_config Lite.runtime 0%nat config_long_timeout
                 (stub_heap (Ok None))))
    = length (stub_heap (Ok None)) /\
  snd (@update_network_config Lite.runtime 0%nat config_long_timeout
         (stub_heap (Ok None))) !! 1%nat
    = stub_heap (Ok None) !! 1%nat.
Proof.
  apply (@update_touches_only_adapter Lite.runtime (stub_heap (Ok None))
           0%nat 1%nat config_long_timeout).
  lia.
Defined.

(** X2: whatever the text and the outcome, after
    [update_network_config] the adapter is still an adapter with the same
    wait-time callback and the same http client: the configuration update
    reaches the three numeric settings only. *)
Theorem update_keeps_callback_and_client `{PyRuntime} (h : heap) (self : loc)
  (a : NetworkAdapter) (config : string) :
  h !! self = Some (ObjAdapter a) ->
  exists a',
    snd (update_network_config self config h) !! self = Some (ObjAdapter a') /\
    wait_time_callback a' = wait_time_callback a /\
    _http_client a' = _http_client a.
Proof.
  intros Hself. update_cases Hself config; try solve [exists a; auto].
  destruct (field_outcome d "timeout" py_float) as [[f |] | e];
    [| | solve [exists a; auto]];
    (destruct (field_outcome d "maximumTimeout" py_float) as [[g |] | e];
     [| | solve [eexists; split; [eapply lookup_self_insert; eassumption | auto]]]);
    destruct (field_outcome d "numberOfRetries" py_int) as [[z |] | e];
    eexists; (split; [eapply lookup_self_insert; eassumption | auto]).
Qed.

Lemma update_keeps_callback_and_client_witness :
  exists a',
    snd (@update_network_config Lite.runtime 0%nat config_bad_maximum
           (stub_heap (Ok None))) !! 0%nat = Some (ObjAdapter a') /\
    wait_time_callback a' = _default_get_wait_time /\
    _http_client a' = Some (stub_client (Ok None)).
Proof.
  apply (@update_keeps_callback_and_client Lite.runtime (stub_heap (Ok None))
           0%nat (set_http_client (stub_client (Ok None)) initial_attributes)
           config_bad_maximum).
  reflexivity.
Defined.

(** X3: a text that is valid JSON but not an object (an array, a number,
    a string, [true], [false], [null]) makes [update_network_config]
    raise [AttributeError], from the [.get] call, and nothing is
    changed. *)
Theorem update_non_object_payload `{PyRuntime} (h : heap) (self : loc)
  (config : string) (v : pyval) :
  json_loads config = Ok v ->
  match v with
  | PyDict _ => False
  | _ => True
  end ->
  update_network_config self config h = (Raise AttributeError, h).
Proof.
  intros Hparse Hv. apply (update_not_dict_eval h self config v Hparse).
  intros d ->. exact Hv.
Qed.

Lemma update_non_object_payload_witness :
  @update_network_config Lite.runtime 0%nat config_array fresh_heap =
    (Raise AttributeError, fresh_heap).
Proof.
  apply (@update_non_object_payload Lite.runtime fresh_heap 0%nat config_array
           (PyList [PyInt 1; PyInt 2])).
  - vm_compute. reflexivity.
  - exact I.
Defined.

Lemma update_field_same {A} (self : loc) (d1 d2 : gmap string pyval)
  (key : string) (conv : pyval -> result A)
  (store : A -> NetworkAdapter -> NetworkAdapter) (h : heap) :
  default PyNone (d1 !! key) = default PyNone (d2 !! key) ->
  update_field self (PyDict d1) key conv store h =
    update_field self (PyDict d2) key conv store h.
Proof.
  unfold update_field, bind, lift, py_get, py_getitem.
  destruct (d1 !! key) as [v1 |], (d2 !! key) as [v2 |]; simpl;
    intros E; subst; reflexivity.
Qed.

(** X4: a key whose value is [null] counts as a missing key: two object
    payloads that agree on timeout, maximumTimeout and numberOfRetries,
    with [null] read as missing, have the same result and the same
    effect. *)
Theorem update_null_is_absent `{PyRuntime} (h : heap) (self : loc)
  (config1 config2 : string) (d1 d2 : gmap string pyval) :
  json_loads config1 = Ok (PyDict d1) ->
  json_loads config2 = Ok (PyDict d2) ->
  same_settings d1 d2 ->
  update_network_config self config1 h = update_network_config self config2 h.
Proof.
  intros H1 H2 (E1 & E2 & E3).
  unfold update_network_config, bind, lift. rewrite H1, H2.
  rewrite (update_field_same self d1 d2 "timeout" _ _ h E1).
  destruct (update_field self (PyDict d2) "timeout" _ _ h) as [[[] | e] h1];
    [| reflexivity].
  rewrite (update_field_same self d1 d2 "maximumTimeout" _ _ h1 E2).
  destruct (update_field self (PyDict d2) "maximumTimeout" _ _ h1)
    as [[[] | e] h2]; [| reflexivity].
  apply update_field_same. exact E3.
Qed.

Lemma update_null_is_absent_witness :
  @update_network_config Lite.runtime 0%nat config_null_timeout fresh_heap =
    @update_network_config Lite.runtime 0%nat config_four_retries fresh_heap.
Proof.
  apply (@update_null_is_absent Lite.runtime fresh_heap 0%nat
           config_null_timeout config_four_retries
           (<["numberOfRetries"%string := PyInt 4]>
              {["timeout"%string := PyNone]})
           {["numberOfRetries"%string := PyInt 4]}).
  - vm_compute. reflexivity.
  - vm_compute. reflexivity.
  - repeat split; vm_compute; reflexivity.
Defined.

(** X5: an object payload that gives none of timeout, maximumTimeout and
    numberOfRetries (each missing or [null]; any other keys may be there)
    returns normally and changes nothing, the adapter included. *)
Theorem update_without_known_keys `{PyRuntime} (h : heap) (self : loc)
  (config : string) (d : gmap string pyval) :
  json_loads config = Ok (PyDict d) ->
  leaves_alone d "timeout" ->
  leaves_alone d "maximumTimeout" ->
  leaves_alone d "numberOfRetries" ->
  update_network_config self config h = (Ok tt, h).
Proof.
  intros Hparse Lt Lm Lr.
  unfold update_network_config, bind, lift. rewrite Hparse.
  rewrite (update_field_left_alone h self d "timeout") by assumption.
  rewrite (update_field_left_alone h self d "maximumTimeout") by assumption.
  apply update_field_left_alone. assumption.
Qed.

Lemma update_without_known_keys_witness :
  @update_network_config Lite.runtime 0%nat
    ("{" ++ Lite.quoted "verbose" ++ ": true}") fresh_heap = (Ok tt, fresh_heap).
Proof.
  apply (@update_without_known_keys Lite.runtime fresh_heap 0%nat
           ("{" ++ Lite.quoted "verbose" ++ ": true}")
           {["verbose"%string := PyBool true]}).
  - vm_compute. reflexivity.
  - vm_compute. reflexivity.
  - vm_compute. reflexivity.
  - vm_compute. reflexivity.
Defined.

(** ** Where an update stops *)

Lemma is_not_None_true (v : pyval) : v <> PyNone -> is_not_None v = true.
Proof. destruct v; intros Hv; try reflexivity. destruct (Hv eq_refl). Qed.

Lemma py_float_not_None `{PyRuntime} (v : pyval) (f : spec_float) :
  py_float v = Ok f -> is_not_None v = true.
Proof. destruct v; intros Hf; try reflexivity. discriminate. Qed.

Lemma field_outcome_stored {A} (d : gmap string pyval) (key : string)
  (conv : pyval -> result A) (v : pyval) (x : A) :
  d !! key = Some v -> is_not_None v = true -> conv v = Ok x ->
  field_outcome d key conv = Ok (Some x).
Proof. unfold field_outcome. intros -> -> ->. reflexivity. Qed.

Lemma field_outcome_raised {A} (d : gmap string pyval) (key : string)
  (conv : pyval -> result A) (v : pyval) (e : pyexn) :
  d !! key = Some v -> v <> PyNone -> conv v = Raise e ->
  field_outcome d key conv = Raise e.
Proof.
  unfold field_outcome. intros -> Hv ->.
  rewrite (is_not_None_true v Hv). reflexivity.
Qed.

Lemma field_outcome_alone {A} (d : gmap string pyval) (key : string)
  (conv : pyval -> result A) :
  leaves_alone d key -> field_outcome d key conv = Ok None.
Proof.
  unfold leaves_alone, field_outcome.
  destruct (d !! key) as [v |]; simpl; [intros -> |]; reflexivity.
Qed.

(** X6: the update is not atomic.  When the payload's timeout converts
    and the conversion of its maximumTimeout raises, the call raises
    that error with the new timeout already stored; maximum timeout and
    number of retries are as before, whatever the payload says about the
    retries. *)
Theorem update_stops_at_failed_conversion `{PyRuntime} (h : heap) (self : loc)
  (a : NetworkAdapter) (config : string) (d : gmap string pyval)
  (vt vm : pyval) (f : spec_float) (e : pyexn) :
  h !! self = Some (ObjAdapter a) ->
  json_loads config = Ok (PyDict d) ->
  d !! "timeout" = Some vt -> py_float vt = Ok f ->
  d !! "maximumTimeout" = Some vm -> vm <> PyNone -> py_float vm = Raise e ->
  exists a',
    update_network_config self config h = (Raise e, <[self := ObjAdapter a']> h) /\
    timeout a' = NFloat f /\
    maximum_timeout a' = maximum_timeout a /\
    number_of_retries a' = number_of_retries a.
Proof.
  intros Hself Hparse Ht Hf Hm Hvm He.
  rewrite (update_dict_eval h self a config d Hself Hparse).
  rewrite (field_outcome_stored d "timeout" py_float vt f Ht
             (py_float_not_None vt f Hf) Hf).
  rewrite (field_outcome_raised d "maximumTimeout" py_float vm e Hm Hvm He).
  eexists. split; [reflexivity |]. repeat split.
Qed.

Lemma update_stops_at_failed_conversion_witness :
  exists a',
    @update_network_config Lite.runtime 0%nat config_bad_maximum fresh_heap =
      (Raise ValueError, <[0%nat := ObjAdapter a']> fresh_heap) /\
    timeout a' = NFloat (S754_finite false 5629499534213120 (-50)) /\
    maximum_timeout a' = NInt 10000 /\
    number_of_retries a' = 2.
Proof.
  apply (@update_stops_at_failed_conversion Lite.runtime fresh_heap 0%nat
           initial_attributes config_bad_maximum
           (<["maximumTimeout"%string := PyStr "soon"]>
              {["timeout"%string := PyInt 5]})
           (PyInt 5) (PyStr "soon")).
  - reflexivity.
  - vm_compute. reflexivity.
  - vm_compute. reflexivity.
  - vm_compute. reflexivity.
  - vm_compute. reflexivity.
  - discriminate.
  - vm_compute. reflexivity.
Defined.

(** X7: when the conversion of the payload's timeout raises, the call
    raises that error and nothing at all is changed: maximumTimeout and
    numberOfRetries are not looked at, valid or not. *)
Theorem update_failed_first_conversion `{PyRuntime} (h : heap) (self : loc)
  (config : string) (d : gmap string pyval) (vt : pyval) (e : pyexn) :
  json_loads config = Ok (PyDict d) ->
  d !! "timeout" = Some vt -> vt <> PyNone -> py_float vt = Raise e ->
  update_network_config self config h = (Raise e, h).
Proof.
  intros Hparse Ht Hvt He.
  unfold update_network_config, bind, lift. rewrite Hparse.
  unfold update_field, bind, lift, py_get, py_getitem.
  rewrite Ht. simpl. rewrite (is_not_None_true vt Hvt), He. reflexivity.
Qed.

Lemma update_failed_first_conversion_witness :
  @update_network_config Lite.runtime 0%nat config_bad_timeout fresh_heap =
    (Raise ValueError, fresh_heap).
Proof.
  apply (@update_failed_first_conversion Lite.runtime fresh_heap 0%nat
           config_bad_timeout
           (<["numberOfRetries"%string := PyInt 4]>
              {["timeout"%string := PyStr "soon"]})
           (PyStr "soon")).
  - vm_compute. reflexivity.
  - vm_compute. reflexivity.
  - discriminate.
  - vm_compute. reflexivity.
Defined.

(** X8: the number of retries changes only in a call that returns: if
    [update_network_config] raises, for whatever reason, the adapter's
    number of retries is what it was. *)
Theorem update_raise_keeps_retries `{PyRuntime} (h : heap) (self : loc)
  (a : NetworkAdapter) (config : string) (e : pyexn) :
  h !! self = Some (ObjAdapter a) ->
  fst (update_network_config self config h) = Raise e ->
  exists a',
    snd (update_network_config self config h) !! self = Some (ObjAdapter a') /\
    number_of_retries a' = number_of_retries a.
Proof.
  intros Hself. update_cases Hself config; try solve [exists a; auto].
  destruct (field_outcome d "timeout" py_float) as [[f |] | e'];
    [| | solve [exists a; auto]];
    (destruct (field_outcome d "maximumTimeout" py_float) as [[g |] | e'];
     [| | solve [eexists; split; [eapply lookup_self_insert; eassumption | auto]]]);
    (destruct (field_outcome d "numberOfRetries" py_int) as [[z |] | e'];
     [discriminate | discriminate |]);
    intros _; eexists; (split; [eapply lookup_self_insert; eassumption | auto]).
Qed.

Lemma update_raise_keeps_retries_witness :
  exists a',
    snd (@update_network_config Lite.runtime 0%nat config_bad_maximum fresh_heap)
      !! 0%nat = Some (ObjAdapter a') /\
    number_of_retries a' = 2.
Proof.
  apply (@update_raise_keeps_retries Lite.runtime fresh_heap 0%nat
           initial_attributes config_bad_maximum ValueError).
  - reflexivity.
  - vm_compute. reflexivity.
Defined.

(** X9: applying the same text twice is the same as applying it once:
    the second call ends as the first did, returning or raising the same
    error, and leaves the heap of the first call as it is. *)
Theorem update_idempotent `{PyRuntime} (h : heap) (self : loc)
  (a : NetworkAdapter) (config : string) :
  h !! self = Some (ObjAdapter a) ->
  update_network_config self config (snd (update_network_config self config h))
    = update_network_config self config h.
Proof.
  intros Hself.
  destruct (json_loads config) as [v | e] eqn:Hparse.
  - destruct v;
      try (rewrite !(update_not_dict_eval _ _ _ _ Hparse) by (intros; discriminate);
           reflexivity).
    rewrite (update_dict_eval h self a config d Hself Hparse).
    destruct (field_outcome d "timeout" py_float) as [[f |] | e] eqn:Ot;
      [| | simpl snd; rewrite (update_dict_eval h self a config d Hself Hparse), Ot;
           reflexivity];
      (destruct (field_outcome d "maximumTimeout" py_float) as [[g |] | e] eqn:Om);
      try (destruct (field_outcome d "numberOfRetries" py_int) as [[z |] | e] eqn:Orr);
      cbv zeta; simpl snd;
      erewrite update_dict_eval
        by (first [eapply lookup_self_insert; eassumption | eassumption]);
      rewrite Ot, ?Om, ?Orr; cbv zeta; rewrite ?list_insert_insert_eq;
      reflexivity.
  - rewrite !(update_unparsed_eval _ _ _ _ Hparse). reflexivity.
Qed.

Lemma update_idempotent_witness :
  @update_network_config Lite.runtime 0%nat config_bad_maximum
    (snd (@update_network_config Lite.runtime 0%nat config_bad_maximum fresh_heap))
  = @update_network_config Lite.runtime 0%nat config_bad_maximum fresh_heap.
Proof.
  apply (@update_idempotent Lite.runtime fresh_heap 0%nat initial_attributes
           config_bad_maximum).
  reflexivity.
Defined.

(** X18: the number of retries is not validated: any integer the payload
    gives, a negative one included, is stored as it is (the payload
    giving no timeouts). *)
Theorem update_stores_any_integer `{PyRuntime} (h : heap) (self : loc)
  (a : NetworkAdapter) (config : string) (d : gmap string pyval) (z : Z) :
  h !! self = Some (ObjAdapter a) ->
  json_loads config = Ok (PyDict d) ->
  leaves_alone d "timeout" ->
  leaves_alone d "maximumTimeout" ->
  d !! "numberOfRetries" = Some (PyInt z) ->
  exists a',
    update_network_config self config h = (Ok tt, <[self := ObjAdapter a']> h) /\
    number_of_retries a' = z /\
    timeout a' = timeout a /\
    maximum_timeout a' = maximum_timeout a.
Proof.
  intros Hself Hparse Lt Lm Hr.
  rewrite (update_dict_eval h self a config d Hself Hparse).
  rewrite (field_outcome_alone d "timeout" py_float Lt).
  rewrite (field_outcome_alone d "maximumTimeout" py_float Lm).
  rewrite (field_outcome_stored d "numberOfRetries" py_int (PyInt z) z Hr
             eq_refl eq_refl).
  eexists. split; [reflexivity |]. repeat split.
Qed.

Lemma update_stores_any_integer_witness :
  exists a',
    @update_network_config Lite.runtime 0%nat config_negative_retries fresh_heap
      = (Ok tt, <[0%nat := ObjAdapter a']> fresh_heap) /\
    number_of_retries a' = -3 /\
    timeout a' = NInt 2000 /\
    maximum_timeout a' = NInt 10000.
Proof.
  apply (@update_stores_any_integer Lite.runtime fresh_heap 0%nat
           initial_attributes config_negative_retries
           {["numberOfRetries"%string := PyInt (-3)]} (-3)).
  - reflexivity.
  - vm_compute. reflexivity.
  - vm_compute. reflexivity.
  - vm_compute. reflexivity.
  - vm_compute. reflexivity.
Defined.

(** ** Export, then import *)

Lemma py_float_of_safe `{PyRuntime} (n : num) :
  float_safe n ->
  exists f, py_float (num_to_py n) = Ok f /\ same_number n (NFloat f).
Proof.
  destruct n as [z | f]; simpl; intros Hsafe.
  - destruct (int_to_float_exact z Hsafe) as (f & Hf & Heq).
    exists f. split; [exact Hf |]. exists f. split; [reflexivity | exact Heq].
  - exists f. split; reflexivity.
Qed.

Lemma is_not_None_num (n : num) : is_not_None (num_to_py n) = true.
Proof. destruct n; reflexivity. Qed.

(** X10: feeding an adapter its own exported snapshot back.  If the text
    decodes to what [fetch_network_config] returns, and the adapter's two
    timeouts are floats or integers below [2^53] in magnitude, then
    [update_network_config] returns and the configuration is the same:
    a float timeout is kept as it is, an integer timeout becomes the float
    equal to it, and the number of retries is unchanged. *)
Theorem export_import_round_trip `{PyRuntime} (h : heap) (self : loc)
  (a : NetworkAdapter) (config : string) (snapshot : pyval) :
  h !! self = Some (ObjAdapter a) ->
  fst (fetch_network_config self h) = Ok snapshot ->
  json_loads config = Ok snapshot ->
  float_safe (timeout a) ->
  float_safe (maximum_timeout a) ->
  exists a',
    update_network_config self config h = (Ok tt, <[self := ObjAdapter a']> h) /\
    same_number (timeout a) (timeout a') /\
    same_number (maximum_timeout a) (maximum_timeout a') /\
    number_of_retries a' = number_of_retries a.
Proof.
  intros Hself Hfetch Hparse St Sm.
  rewrite (fetch_network_config_eval h self a Hself) in Hfetch.
  injection Hfetch as <-.
  rewrite (update_dict_eval h self a config _ Hself Hparse).
  destruct (py_float_of_safe (timeout a) St) as (f & Hf & Ef).
  destruct (py_float_of_safe (maximum_timeout a) Sm) as (g & Hg & Eg).
  rewrite (field_outcome_stored _ "timeout" py_float (num_to_py (timeout a)) f);
    [| rewrite lookup_insert_ne, lookup_insert_ne, lookup_singleton_eq
         by discriminate; reflexivity
     | apply is_not_None_num | exact Hf].
  rewrite (field_outcome_stored _ "maximumTimeout" py_float
             (num_to_py (maximum_timeout a)) g);
    [| rewrite lookup_insert_ne, lookup_insert_eq by discriminate; reflexivity
     | apply is_not_None_num | exact Hg].
  rewrite (field_outcome_stored _ "numberOfRetries" py_int
             (PyInt (number_of_retries a)) (number_of_retries a));
    [| rewrite lookup_insert_eq; reflexivity | reflexivity | reflexivity].
  eexists. split; [reflexivity |]. repeat split; assumption.
Qed.

Lemma export_import_round_trip_witness :
  exists a',
    @update_network_config Lite.runtime 0%nat config_defaults fresh_heap =
      (Ok tt, <[0%nat := ObjAdapter a']> fresh_heap) /\
    same_number (NInt 2000) (timeout a') /\
    same_number (NInt 10000) (maximum_timeout a') /\
    number_of_retries a' = 2.
Proof.
  apply (@export_import_round_trip Lite.runtime fresh_heap 0%nat
           initial_attributes config_defaults
           (PyDict
              (<["numberOfRetries"%string := PyInt 2]>
                 (<["maximumTimeout"%string := PyInt 10000]>
                    {["timeout"%string := PyInt 2000]})))).
  - reflexivity.
  - vm_compute. reflexivity.
  - vm_compute. reflexivity.
  - vm_compute. reflexivity.
  - vm_compute. reflexivity.
Defined.

(** ** Building around an update *)

(** X11: build, update, build.  With a well-formed payload that carries
    a timeout [float()] accepts, the request built before the update
    holds the adapter's old timeout and the request built after it holds
    the float of the value given; both are in the final heap, at distinct
    locations. *)
Theorem build_before_and_after_update `{PyRuntime} (h : heap) (self : loc)
  (a : NetworkAdapter) (path : string) (headers : gmap string string)
  (method config : string) (d : gmap string pyval) (v : pyval) :
  h !! self = Some (ObjAdapter a) ->
  json_loads config = Ok (PyDict d) ->
  well_formed_payload d ->
  timeouts_convertible d ->
  d !! "timeout" = Some v ->
  exists h' d1 d2 f,
    build_update_build self path headers method config h =
      (Ok (length h, S (length h)), h') /\
    h' !! length h = Some (ObjRequest d1) /\
    h' !! S (length h) = Some (ObjRequest d2) /\
    CdmHttpRequest.timeout d1 = Some (timeout a) /\
    py_float v = Ok f /\
    CdmHttpRequest.timeout d2 = Some (NFloat f).
Proof.
  intros Hself Hparse Hwf Hconv Hv.
  pose proof (lookup_lt_Some _ _ _ Hself) as Hlt.
  unfold build_update_build, bind.
  rewrite (set_up_cdm_request_eval h self a path headers method Hself).
  set (r1 := CdmHttpRequest.mk path (Some headers) (Some method)
               (Some (timeout a)) (Some (maximum_timeout a))
               (Some (number_of_retries a))).
  pose proof (lookup_snoc_old h (ObjRequest r1) _ self Hself) as Hself1.
  destruct (update_well_formed_eval (h ++ [ObjRequest r1]) self a config d
              Hself1 Hparse Hwf Hconv) as (a' & Hrun & Ht & _).
  rewrite Hrun. rewrite Hv in Ht. destruct Ht as (f & Hf & Ht).
  pose proof (lookup_self_insert _ self _ (ObjAdapter a') Hself1) as Hself2.
  rewrite (set_up_cdm_request_eval _ self a' path headers method Hself2).
  unfold ret.
  assert (Hlen : length (<[self := ObjAdapter a']> (h ++ [ObjRequest r1]))
                 = S (length h)).
  { rewrite length_insert, length_app. simpl. lia. }
  rewrite Hlen.
  eexists _, r1, _, f. split; [reflexivity |].
  split.
  { rewrite lookup_app_l by (rewrite Hlen; lia).
    rewrite list_lookup_insert_ne by lia. apply lookup_snoc_new. }
  split.
  { rewrite <- Hlen. apply lookup_snoc_new. }
  split; [reflexivity |]. split; [exact Hf |].
  simpl. rewrite Ht. reflexivity.
Qed.

Lemma build_before_and_after_update_witness :
  exists h' d1 d2 f,
    @build_update_build Lite.runtime 0%nat "https://host/doc.json" ∅ "GET"
      config_long_timeout fresh_heap = (Ok (1%nat, 2%nat), h') /\
    h' !! 1%nat = Some (ObjRequest d1) /\
    h' !! 2%nat = Some (ObjRequest d2) /\
    CdmHttpRequest.timeout d1 = Some (NInt 2000) /\
    @py_float Lite.runtime (PyInt 20000) = Ok f /\
    CdmHttpRequest.timeout d2 = Some (NFloat f).
Proof.
  apply (@build_before_and_after_update Lite.runtime fresh_heap 0%nat
           initial_attributes "https://host/doc.json" ∅ "GET"
           config_long_timeout {["timeout"%string := PyInt 20000]}
           (PyInt 20000)).
  - reflexivity.
  - vm_compute. reflexivity.
  - repeat split; by_lookup. exact I.
  - split; by_lookup. eexists. vm_compute. reflexivity.
  - vm_compute. reflexivity.
Defined.

(** ** Reading what was built *)

(** X13: building a request and reading it hands the transport exactly
    that request (the url, headers and method given, with the adapter's
    timeout, maximum timeout and number of retries) together with the
    adapter's wait-time callback; the answer is then treated as [_read]
    treats it, and the url in an [HTTPError] is the path given. *)
Theorem build_and_read_sends_request (h : heap) (self : loc)
  (a : NetworkAdapter) (client : CdmHttpClient) (path : string)
  (headers : gmap string string) (method : string) :
  h !! self = Some (ObjAdapter a) ->
  _http_client a = Some client ->
  let request :=
    CdmHttpRequest.mk path (Some headers) (Some method) (Some (timeout a))
      (Some (maximum_timeout a)) (Some (number_of_retries a)) in
  build_and_read self path headers method h =
    (match send_async client request (wait_time_callback a) with
     | Ok (Some res) =>
         if CdmHttpResponse.is_successful res
         then Ok (CdmHttpResponse.content res)
         else Raise (HTTPError path (CdmHttpResponse.status_code res)
                       "Failed to read" (CdmHttpResponse.response_headers res))
     | Ok None => Raise (Exception "The result of a request is undefined.")
     | Raise e => Raise e
     end, h ++ [ObjRequest request]).
Proof.
  intros Hself Hclient request. unfold build_and_read, bind.
  rewrite (set_up_cdm_request_eval h self a path headers method Hself).
  fold request.
  apply (read_eval (h ++ [ObjRequest request]) self (length h) a client request).
  - apply lookup_snoc_old. exact Hself.
  - exact Hclient.
  - apply lookup_snoc_new.
Qed.

Lemma build_and_read_sends_request_witness :
  build_and_read 0%nat "https://host/doc.json" ∅ "GET"
    [ObjAdapter (set_http_client (stub_client (Ok (Some (stub_response true))))
                   initial_attributes)]
  = (Ok "payload"%string,
     [ObjAdapter (set_http_client (stub_client (Ok (Some (stub_response true))))
                    initial_attributes);
      ObjRequest stub_request]).
Proof.
  apply (build_and_read_sends_request
           [ObjAdapter (set_http_client
                          (stub_client (Ok (Some (stub_response true))))
                          initial_attributes)]
           0%nat
           (set_http_client (stub_client (Ok (Some (stub_response true))))
              initial_attributes)
           (stub_client (Ok (Some (stub_response true))))
           "https://host/doc.json" ∅ "GET").
  - reflexivity.
  - reflexivity.
Defined.

(** X14: an exception raised by the transport passes through [_read]
    unchanged: it is neither caught nor wrapped, and the heap is as
    before. *)
Theorem read_propagates_client_error (h : heap) (self request : loc)
  (a : NetworkAdapter) (client : CdmHttpClient) (r : CdmHttpRequest.t)
  (e : pyexn) :
  h !! self = Some (ObjAdapter a) ->
  _http_client a = Some client ->
  h !! request = Some (ObjRequest r) ->
  send_async client r (wait_time_callback a) = Raise e ->
  _read self request h = (Raise e, h).
Proof.
  intros Hself Hclient Hreq Hsend.
  rewrite (read_eval h self request a client r Hself Hclient Hreq), Hsend.
  reflexivity.
Qed.

Lemma read_propagates_client_error_witness :
  _read 0%nat 1%nat (stub_heap (Raise (ClientError "connection reset"))) =
    (Raise (ClientError "connection reset"),
     stub_heap (Raise (ClientError "connection reset"))).
Proof.
  apply (read_propagates_client_error
           (stub_heap (Raise (ClientError "connection reset"))) 0%nat 1%nat
           (set_http_client (stub_client (Raise (ClientError "connection reset")))
              initial_attributes)
           (stub_client (Raise (ClientError "connection reset")))
           stub_request (ClientError "connection reset")).
  - reflexivity.
  - reflexivity.
  - reflexivity.
  - reflexivity.
Defined.

(** X15: the base class cannot read.  [__init__] assigns no http client,
    so reading through an adapter that was only constructed raises
    [AttributeError], whatever the request, and the only change to the
    heap is the new adapter. *)
Theorem construct_and_read_fails (h : heap) (request : loc) :
  construct_and_read request h =
    (Raise AttributeError, h ++ [ObjAdapter initial_attributes]).
Proof.
  unfold construct_and_read, bind, __init__, alloc, _read, bind.
  rewrite get_adapter_snoc_self. reflexivity.
Qed.

(** ** The wait times there are *)

(** X16: on a failing path with retry number [n], the wait times the
    default callback can return are exactly the multiples
    [k * DEFAULT_SHORTEST_WAIT_TIME] with [0 <= k <= 2^n]: each is
    returned for some draw, and nothing else ever is. *)
Theorem default_wait_times_are_multiples (response : option CdmHttpResponse.t)
  (has_failed : bool) (n : N) (w : Z) :
  failing_path response has_failed ->
  (exists draw,
      _default_get_wait_time response has_failed n draw = Ok (Some w)) <->
  (exists k, 0 <= k <= 2 ^ Z.of_N n /\ w = k * DEFAULT_SHORTEST_WAIT_TIME).
Proof.
  intros Hfail. pose proof (pow2_pos n) as Hpos. split.
  - intros (draw & Hw).
    rewrite (default_wait_time_failing _ _ _ _ Hfail) in Hw.
    destruct (randint_range 0 (2 ^ Z.of_N n) draw) as (k & Hk & Hrange);
      [lia |].
    rewrite Hk in Hw. injection Hw as <-. exists k. split; [lia | reflexivity].
  - intros (k & Hk & ->). exists (k - 0).
    rewrite (default_wait_time_failing _ _ _ _ Hfail).
    rewrite randint_onto by lia. reflexivity.
Qed.

Lemma default_wait_times_are_multiples_witness :
  (exists draw, _default_get_wait_time None true 2%N draw = Ok (Some 1500)) <->
  (exists k, 0 <= k <= 2 ^ Z.of_N 2%N /\ 1500 = k * DEFAULT_SHORTEST_WAIT_TIME).
Proof.
  apply (default_wait_times_are_multiples None true 2%N 1500).
  left. reflexivity.
Defined.

(** X17: the default callback does not tell failures apart: a missing
    response, an unsuccessful response of any status code, and a raised
    [has_failed] flag all give the same wait time for the same retry
    number and draw. *)
Theorem default_wait_time_ignores_failure_kind
  (response1 response2 : option CdmHttpResponse.t) (failed1 failed2 : bool)
  (n : N) (draw : Z) :
  failing_path response1 failed1 ->
  failing_path response2 failed2 ->
  _default_get_wait_time response1 failed1 n draw =
    _default_get_wait_time response2 failed2 n draw.
Proof.
  intros H1 H2.
  rewrite (default_wait_time_failing _ _ _ _ H1).
  rewrite (default_wait_time_failing _ _ _ _ H2). reflexivity.
Qed.

Lemma default_wait_time_ignores_failure_kind_witness :
  _default_get_wait_time None false 3%N 7 =
    _default_get_wait_time (Some (stub_response false)) true 3%N 7.
Proof.
  apply (default_wait_time_ignores_failure_kind None
           (Some (stub_response false)) false true 3%N 7).
  - left. reflexivity.
  - right. right. reflexivity.
Defined.

(** ** The invariant and the payload *)



(** ** Two adapters *)

(** X19: adapters do not share their configuration.  Of two adapters
    constructed one after the other, an update of the first, whatever its
    text and outcome, leaves the second with the attributes [__init__]
    gave it. *)
Theorem adapters_do_not_share_configuration `{PyRuntime} (h : heap)
  (config : string) :
  let h1 := snd (__init__ h) in
  let h2 := snd (__init__ h1) in
  fst (__init__ h) = Ok (length h) /\
  fst (__init__ h1) = Ok (S (length h)) /\
  snd (update_network_config (length h) config h2) !! S (length h)
    = Some (ObjAdapter initial_attributes).
Proof.
  intros h1 h2. subst h2 h1. unfold __init__, alloc. simpl fst; simpl snd.
  assert (Hlen : length (h ++ [ObjAdapter initial_attributes]) = S (length h)).
  { rewrite length_app. simpl. lia. }
  split; [reflexivity |]. split; [rewrite Hlen; reflexivity |].
  destruct (writes_only_update_network_config (length h) config
              ((h ++ [ObjAdapter initial_attributes])
                 ++ [ObjAdapter initial_attributes])) as [_ Hframe].
  rewrite Hframe by lia.
  rewrite <- Hlen. apply lookup_snoc_new.
Qed.
